(** * Strix Viz front end: state synchronisation and view coordination

    A shallow embedding of the React front end of Strix Viz
    (types.ts, GraphView.tsx, TerminalView.tsx, App.tsx) together with the
    properties of its snapshot store, live event ingester, filter pipeline
    and selection coordinator.

    React state is a record; every handler is a function from state to
    state.  An asynchronous function is cut at its [await]: one function
    for the part that runs when it is called and one for the part that
    runs when the awaited promise settles.  The clock and the random
    generator are explicit arguments. *)

From Stdlib Require Import String Ascii List Bool Arith Lia ZArith.
From Stdlib Require Import DecimalString.
Import ListNotations.
Set Warnings "-register-all".
Local Open Scope list_scope.
Local Open Scope string_scope.

(** ** JavaScript values and primitives *)

Module JS.

(** A property declared [?: T | null]: it may be missing, [null], or hold
    a value.  Strict equality tells the three apart. *)
Inductive nullable (A : Type) : Type :=
| Undefined
| Null
| Val (a : A).
Arguments Undefined {A}.
Arguments Null {A}.
Arguments Val {A} a.

(** [x ?? d] *)
Definition nullish {A} (x : nullable A) (d : A) : A :=
  match x with
  | Val a => a
  | _ => d
  end.

(** [o ?? d] for a property declared [?: T]. *)
Definition orElse {A} (x : option A) (d : A) : A :=
  match x with
  | Some a => a
  | None => d
  end.

(** Truthiness of a string-or-nullish value: only a non-empty string. *)
Definition truthy_str (x : nullable string) : bool :=
  match x with
  | Val s => negb (s =? "")
  | _ => false
  end.

(** [a === b] on [string | null | undefined]. *)
Definition strict_eq (a b : nullable string) : bool :=
  match a, b with
  | Undefined, Undefined => true
  | Null, Null => true
  | Val x, Val y => x =? y
  | _, _ => false
  end.

(** [a === s] where [s] is a string. *)
Definition strict_eq_str (a : nullable string) (s : string) : bool :=
  strict_eq a (Val s).

(** [String.prototype.toLowerCase] on strings of ASCII characters. *)
Definition lower_ascii (c : ascii) : ascii :=
  let n := nat_of_ascii c in
  if ((65 <=? n) && (n <=? 90))%nat then ascii_of_nat (n + 32) else c.

Fixpoint toLowerCase (s : string) : string :=
  match s with
  | EmptyString => EmptyString
  | String c r => String (lower_ascii c) (toLowerCase r)
  end.

(** [x?.toLowerCase()] *)
Definition toLowerCase_opt (x : nullable string) : nullable string :=
  match x with
  | Val s => Val (toLowerCase s)
  | _ => Undefined
  end.

(** [s.split(sep)] for a one-character separator. *)
Fixpoint split (sep : ascii) (s : string) : list string :=
  match s with
  | EmptyString => [EmptyString]
  | String c r =>
      if Ascii.eqb c sep then EmptyString :: split sep r
      else match split sep r with
           | h :: t => String c h :: t
           | [] => [String c EmptyString]
           end
  end.

(** [s.split(sep, limit)]: the first [limit] pieces of the full split. *)
Definition split_limit (sep : ascii) (limit : nat) (s : string) : list string :=
  firstn limit (split sep s).

(** [const [, x] = arr] reads index 1, [undefined] when the array is
    shorter. *)
Definition second (l : list string) : option string := nth_error l 1.

(** Values of type [unknown] coming out of [JSON.parse]. *)
Inductive value : Type :=
| JUndefined
| JNull
| JBool (b : bool)
| JNum (n : Z)
| JStr (s : string)
| JArr (items : list value)
| JObj (props : list (string * value)).

Definition typeof (v : value) : string :=
  match v with
  | JUndefined => "undefined"
  | JNull => "object"
  | JBool _ => "boolean"
  | JNum _ => "number"
  | JStr _ => "string"
  | JArr _ => "object"
  | JObj _ => "object"
  end.

Definition truthy (v : value) : bool :=
  match v with
  | JUndefined => false
  | JNull => false
  | JBool b => b
  | JNum n => negb (n =? 0)%Z
  | JStr s => negb (s =? "")
  | JArr _ => true
  | JObj _ => true
  end.

(** [o[k]] on a parsed object: [undefined] when the key is missing. *)
Fixpoint prop (o : list (string * value)) (k : string) : value :=
  match o with
  | [] => JUndefined
  | (k', v) :: rest => if k' =? k then v else prop rest k
  end.

(** [typeof v === "string" ? v : undefined] *)
Definition string_or_undefined (v : value) : nullable string :=
  if typeof v =? "string" then
    match v with
    | JStr s => Val s
    | _ => Undefined
    end
  else Undefined.

(** A [Map<string, V>]: keys in insertion order, one entry per key. *)
Section Map.
Context {V : Type}.

Definition Map := list (string * V).

Fixpoint Map_set (k : string) (v : V) (m : Map) : Map :=
  match m with
  | [] => [(k, v)]
  | (k', v') :: rest =>
      if k' =? k then (k, v) :: rest else (k', v') :: Map_set k v rest
  end.

(** [new Map(entries)] *)
Definition Map_new (entries : list (string * V)) : Map :=
  fold_left (fun m e => Map_set (fst e) (snd e) m) entries [].

Definition Map_has (m : Map) (k : string) : bool :=
  existsb (fun e => fst e =? k) m.

(** The values visited by [m.forEach], in order. *)
Definition Map_values (m : Map) : list V := map snd m.
End Map.

(** [s.includes(c)] for a one-character needle. *)
Fixpoint includes (c : ascii) (s : string) : bool :=
  match s with
  | EmptyString => false
  | String c' r => Ascii.eqb c' c || includes c r
  end.

(** A [Set<string>] as the list of its members in insertion order. *)
Definition Set_has (s : list string) (x : string) : bool :=
  existsb (fun y => y =? x) s.

Definition Set_add (x : string) (s : list string) : list string :=
  if Set_has s x then s else (s ++ [x])%list.

(** [Array.from(new Set(l))] *)
Definition Set_new (l : list string) : list string :=
  fold_left (fun s x => Set_add x s) l [].

(** [l.filter(Boolean)] on strings that may be missing: the non-empty
    strings of [l]. *)
Definition truthyStrings (l : list (nullable string)) : list string :=
  flat_map (fun x => if truthy_str x then [nullish x ""] else []) l.

(** [v === s] for an untyped value and a string. *)
Definition value_is_string (v : value) (s : string) : bool :=
  match v with
  | JStr x => x =? s
  | _ => false
  end.

(** [args?.url]: the property of an object, [undefined] on anything else. *)
Definition args_url (args : value) : value :=
  match args with
  | JObj props => prop props "url"
  | _ => JUndefined
  end.

End JS.
Import JS.

(** ** Entity model (types.ts) *)

Module RunMetadata.
Record t := { id : string; created_at : option string; event_count : nat }.
End RunMetadata.

Module Agent.
Record t := { id : string; label : string; first_seen : string; last_seen : string }.
End Agent.

Module Asset.
Record t :=
  { id : string; label : string; url : string;
    first_seen : string; last_seen : string }.
End Asset.

Module Vulnerability.
Record t :=
  { id : string;
    agent_id : nullable string;
    asset_id : nullable string;
    severity : nullable string;
    category : nullable string;
    description : nullable string;
    ts : string }.
End Vulnerability.

Module Edge.
Record t :=
  { id : string; source : string; target : string;
    relation : string; label : nullable string }.
End Edge.

Module ToolCall.
Record t :=
  { id : string;
    ts : string;
    agent_id : nullable string;
    tool : nullable string;
    target : nullable string;
    status : nullable string;
    summary : nullable string;
    args : value;
    result_summary : nullable string }.
End ToolCall.

Module Snapshot.
(** [tool_calls] is read as [data.tool_calls ?? []], so it is kept
    nullable here. *)
Record t :=
  { run_id : string;
    agents : list Agent.t;
    assets : list Asset.t;
    vulnerabilities : list Vulnerability.t;
    edges : list Edge.t;
    tool_calls : option (list ToolCall.t);
    last_event_ts : nullable string }.
End Snapshot.

Module LiveEvent.
(** [Record<string, unknown> & { type?: string; ts?: string }]: the two
    typed properties, and every other property as an untyped value. *)
Record t :=
  { type : option string;
    ts : option string;
    rest : list (string * value) }.

Definition get (e : t) (k : string) : value := prop (rest e) k.
End LiveEvent.

(** ** Graph projector (GraphView.tsx) *)

Module GraphView.

Inductive EntityType := agent | asset | vuln.

Record GraphSelection := { id : string; entityType : EntityType }.

(** A node of the element list.  The colour score [severityScore] is
    presentation only and is left out. *)
Record NodeElement :=
  { node_id : string;
    node_label : string;
    node_entityType : EntityType;
    node_severity : option string;
    node_classes : string }.

Record EdgeElement :=
  { edge_id : string;
    edge_source : string;
    edge_target : string;
    edge_label : string }.

Inductive ElementDefinition :=
| NodeDef (n : NodeElement)
| EdgeDef (e : EdgeElement).

Section Props.
Variable snapshot : Snapshot.t.
Variable agentFilter : string.
Variable severityFilter : string.

Definition agents : Map :=
  Map_new (map (fun a => (Agent.id a, a)) (Snapshot.agents snapshot)).
Definition assets : Map :=
  Map_new (map (fun a => (Asset.id a, a)) (Snapshot.assets snapshot)).
Definition vulns : Map :=
  Map_new (map (fun v => (Vulnerability.id v, v))
               (Snapshot.vulnerabilities snapshot)).

Definition shouldFadeAgent (id : string) : bool :=
  negb (agentFilter =? "all") && negb (id =? agentFilter).

Definition shouldFadeVuln (severity : nullable string) : bool :=
  if severityFilter =? "all" then false
  else
    let normalized := nullish (toLowerCase_opt severity) "unknown" in
    negb (normalized =? severityFilter).

Definition agentNode (a : Agent.t) : NodeElement :=
  {| node_id := "agent:" ++ Agent.id a;
     node_label := Agent.label a;
     node_entityType := agent;
     node_severity := None;
     node_classes :=
       "agent" ++ (if shouldFadeAgent (Agent.id a) then " faded" else "") |}.

Definition assetNode (a : Asset.t) : NodeElement :=
  {| node_id := "asset:" ++ Asset.id a;
     node_label := Asset.label a;
     node_entityType := asset;
     node_severity := None;
     node_classes := "asset" |}.

Definition vulnNode (v : Vulnerability.t) : NodeElement :=
  let severity := nullish (toLowerCase_opt (Vulnerability.severity v)) "low" in
  {| node_id := "vuln:" ++ Vulnerability.id v;
     node_label := Vulnerability.id v;
     node_entityType := vuln;
     node_severity := Some severity;
     node_classes :=
       "vuln" ++ (if shouldFadeVuln (Val severity) then " faded" else "") |}.

Definition nodes : list NodeElement :=
  (map agentNode (Map_values agents)
   ++ map assetNode (Map_values assets)
   ++ map vulnNode (Map_values vulns))%list.

Definition prefix (id : string) : string :=
  if Map_has agents id then "agent:" ++ id
  else if Map_has vulns id then "vuln:" ++ id
  else if Map_has assets id then "asset:" ++ id
  else id.

Definition edgeElement (e : Edge.t) : EdgeElement :=
  {| edge_id := Edge.id e;
     edge_source := prefix (Edge.source e);
     edge_target := prefix (Edge.target e);
     edge_label := nullish (Edge.label e) (Edge.relation e) |}.

(** [.filter((edge) => edge.data.source && edge.data.target)]: a string
    is truthy when it is not empty. *)
Definition edgeKept (e : EdgeElement) : bool :=
  negb (edge_source e =? "") && negb (edge_target e =? "").

Definition edges : list EdgeElement :=
  filter edgeKept (map edgeElement (Snapshot.edges snapshot)).

Definition elements_of : list ElementDefinition :=
  (map NodeDef nodes ++ map EdgeDef edges)%list.
End Props.

(** The memoised element list: empty while there is no snapshot. *)
Definition elements (snapshot : option Snapshot.t)
           (agentFilter severityFilter : string) : list ElementDefinition :=
  match snapshot with
  | None => []
  | Some s => elements_of s agentFilter severityFilter
  end.

(** The Cytoscape instance as the highlight effect sees it: the nodes it
    holds, each with its id and its classes. *)
Record CyNode := { cy_id : string; cy_classes : list string }.

Definition cyNodeOf (n : NodeElement) : CyNode :=
  {| cy_id := node_id n; cy_classes := split " " (node_classes n) |}.

Fixpoint cyNodes (els : list ElementDefinition) : list CyNode :=
  match els with
  | [] => []
  | NodeDef n :: rest => cyNodeOf n :: cyNodes rest
  | EdgeDef _ :: rest => cyNodes rest
  end.

Definition removeClass (c : string) (n : CyNode) : CyNode :=
  {| cy_id := cy_id n;
     cy_classes := filter (fun x => negb (x =? c)) (cy_classes n) |}.

Definition addClass (c : string) (n : CyNode) : CyNode :=
  {| cy_id := cy_id n;
     cy_classes :=
       if existsb (fun x => x =? c) (cy_classes n) then cy_classes n
       else (cy_classes n ++ [c])%list |}.

(** The double quote character. *)
Definition doubleQuote : ascii := ascii_of_nat 34.

(** The selector text [`node[id = "${id}"]`]: the id is put between two
    double quotes as it is, without escaping. *)
Definition selectorText (id : string) : string :=
  "node[id = " ++ String doubleQuote (id ++ String doubleQuote "]").

Section Selector.
(** [cy.$(selector)] is Cytoscape's.  When the id holds no double quote
    the selector is one comparison of a node's id with the id, and the nodes
    selected are the nodes with that id.  A double quote inside the id ends
    the quoted string early and the rest of the id is read as selector text;
    what Cytoscape selects then is not derived here: [spliced] stands for
    its answer to such a selector. *)
Variable spliced : string -> list CyNode -> list CyNode.

Definition selectById (id : string) (cy : list CyNode) : list CyNode :=
  if includes doubleQuote id then spliced (selectorText id) cy
  else filter (fun n => cy_id n =? id) cy.

(** The effect run when [highlightedNodeId] changes; [None] stands for
    [cyRef.current] not being set yet.  [node.addClass] reaches the nodes of
    the collection selected, which Cytoscape tells apart by id. *)
Definition highlightEffect (highlightedNodeId : option string)
           (cy : option (list CyNode)) : option (list CyNode) :=
  match cy with
  | None => None
  | Some ns =>
      let cleared := map (removeClass "highlighted") ns in
      match highlightedNodeId with
      | Some id =>
          if negb (id =? "") then
            let node := selectById id cleared in
            if (0 <? length node)%nat then
              Some (map (fun n => if existsb (fun m => cy_id m =? cy_id n) node
                                  then addClass "highlighted" n else n)
                        cleared)
            else Some cleared
          else Some cleared
      | None => Some cleared
      end
  end.
End Selector.

Definition isHighlighted (n : CyNode) : bool :=
  existsb (fun x => x =? "highlighted") (cy_classes n).

(** The raw ids an edge endpoint can resolve to. *)
Definition knownIds (snapshot : Snapshot.t) : list string :=
  (map Agent.id (Snapshot.agents snapshot)
   ++ map Vulnerability.id (Snapshot.vulnerabilities snapshot)
   ++ map Asset.id (Snapshot.assets snapshot))%list.

(** What a node shows apart from its classes. *)
Definition nodeFace (n : NodeElement)
  : string * string * EntityType * option string :=
  (node_id n, node_label n, node_entityType n, node_severity n).

(** The tap handlers installed by [handleCyInit]: a tap on a node reports
    its id and its [entityType] data, a tap on the background reports
    [null]. *)
Inductive TapTarget :=
| OnNode (n : NodeElement)
| OnBackground.

Definition tap (t : TapTarget) : option GraphSelection :=
  match t with
  | OnNode n => Some {| id := node_id n; entityType := node_entityType n |}
  | OnBackground => None
  end.

End GraphView.

(** ** Terminal projector (TerminalView.tsx) *)

Module TerminalView.

Record TerminalFilters :=
  { agentId : string;
    tool : string;
    onlyErrors : bool;
    onlySuccess : bool }.

Definition normalizedStatus (call : ToolCall.t) : string :=
  toLowerCase (nullish (ToolCall.status call) "").

Definition isError (call : ToolCall.t) : bool :=
  negb (normalizedStatus call =? "")
  && negb (normalizedStatus call =? "ok")
  && negb (normalizedStatus call =? "success").

Definition isSuccess (call : ToolCall.t) : bool :=
  (normalizedStatus call =? "ok") || (normalizedStatus call =? "success").

(** The predicate handed to [toolCalls.filter]. *)
Definition keepCall (filters : TerminalFilters) (call : ToolCall.t) : bool :=
  if negb (agentId filters =? "all")
     && negb (strict_eq_str (ToolCall.agent_id call) (agentId filters))
  then false
  else if negb (tool filters =? "all")
          && negb (strict_eq_str (ToolCall.tool call) (tool filters))
  then false
  else if onlyErrors filters && negb (isError call) then false
  else if onlySuccess filters && negb (isSuccess call) then false
  else true.

Definition filteredCalls (toolCalls : list ToolCall.t)
           (filters : TerminalFilters) : list ToolCall.t :=
  filter (keepCall filters) toolCalls.

(** The choices offered by the two select boxes. *)
Module Options.

Definition agents (toolCalls : list ToolCall.t) : list string :=
  Set_new (truthyStrings (map ToolCall.agent_id toolCalls)).

Definition tools (toolCalls : list ToolCall.t) : list string :=
  Set_new (truthyStrings (map ToolCall.tool toolCalls)).

End Options.

End TerminalView.

(** ** Application shell (App.tsx): snapshot store, live event ingester and
       selection coordinator *)

Module App.
Import GraphView TerminalView.

Definition defaultTerminalFilters : TerminalFilters :=
  {| agentId := "all"; tool := "all"; onlyErrors := false; onlySuccess := false |}.

(** The thirteen [useState] cells of [App]. *)
Record State :=
  { runs : list RunMetadata.t;
    selectedRun : string;
    snapshot : option Snapshot.t;
    loading : bool;
    error : option string;
    toolCalls : list ToolCall.t;
    terminalFilters : TerminalFilters;
    agentFilter : string;
    severityFilter : string;
    timeRange : string;
    selectedNode : option GraphSelection;
    highlightedNodeId : option string;
    assetTerminalFilter : option string }.

Definition initialState : State :=
  {| runs := [];
     selectedRun := "";
     snapshot := None;
     loading := false;
     error := None;
     toolCalls := [];
     terminalFilters := defaultTerminalFilters;
     agentFilter := "all";
     severityFilter := "all";
     timeRange := "all";
     selectedNode := None;
     highlightedNodeId := None;
     assetTerminalFilter := None |}.

(** *** State setters *)

Definition setSelectedRun (v : string) (st : State) : State :=
  {| runs := runs st; selectedRun := v; snapshot := snapshot st;
     loading := loading st; error := error st; toolCalls := toolCalls st;
     terminalFilters := terminalFilters st; agentFilter := agentFilter st;
     severityFilter := severityFilter st; timeRange := timeRange st;
     selectedNode := selectedNode st;
     highlightedNodeId := highlightedNodeId st;
     assetTerminalFilter := assetTerminalFilter st |}.

Definition setSnapshot (v : option Snapshot.t) (st : State) : State :=
  {| runs := runs st; selectedRun := selectedRun st; snapshot := v;
     loading := loading st; error := error st; toolCalls := toolCalls st;
     terminalFilters := terminalFilters st; agentFilter := agentFilter st;
     severityFilter := severityFilter st; timeRange := timeRange st;
     selectedNode := selectedNode st;
     highlightedNodeId := highlightedNodeId st;
     assetTerminalFilter := assetTerminalFilter st |}.

Definition setLoading (v : bool) (st : State) : State :=
  {| runs := runs st; selectedRun := selectedRun st; snapshot := snapshot st;
     loading := v; error := error st; toolCalls := toolCalls st;
     terminalFilters := terminalFilters st; agentFilter := agentFilter st;
     severityFilter := severityFilter st; timeRange := timeRange st;
     selectedNode := selectedNode st;
     highlightedNodeId := highlightedNodeId st;
     assetTerminalFilter := assetTerminalFilter st |}.

Definition setError (v : option string) (st : State) : State :=
  {| runs := runs st; selectedRun := selectedRun st; snapshot := snapshot st;
     loading := loading st; error := v; toolCalls := toolCalls st;
     terminalFilters := terminalFilters st; agentFilter := agentFilter st;
     severityFilter := severityFilter st; timeRange := timeRange st;
     selectedNode := selectedNode st;
     highlightedNodeId := highlightedNodeId st;
     assetTerminalFilter := assetTerminalFilter st |}.

(** [setToolCalls] is also called with an updater function. *)
Definition setToolCalls (f : list ToolCall.t -> list ToolCall.t)
           (st : State) : State :=
  {| runs := runs st; selectedRun := selectedRun st; snapshot := snapshot st;
     loading := loading st; error := error st; toolCalls := f (toolCalls st);
     terminalFilters := terminalFilters st; agentFilter := agentFilter st;
     severityFilter := severityFilter st; timeRange := timeRange st;
     selectedNode := selectedNode st;
     highlightedNodeId := highlightedNodeId st;
     assetTerminalFilter := assetTerminalFilter st |}.

Definition setTerminalFilters (f : TerminalFilters -> TerminalFilters)
           (st : State) : State :=
  {| runs := runs st; selectedRun := selectedRun st; snapshot := snapshot st;
     loading := loading st; error := error st; toolCalls := toolCalls st;
     terminalFilters := f (terminalFilters st); agentFilter := agentFilter st;
     severityFilter := severityFilter st; timeRange := timeRange st;
     selectedNode := selectedNode st;
     highlightedNodeId := highlightedNodeId st;
     assetTerminalFilter := assetTerminalFilter st |}.

Definition setAgentFilter (v : string) (st : State) : State :=
  {| runs := runs st; selectedRun := selectedRun st; snapshot := snapshot st;
     loading := loading st; error := error st; toolCalls := toolCalls st;
     terminalFilters := terminalFilters st; agentFilter := v;
     severityFilter := severityFilter st; timeRange := timeRange st;
     selectedNode := selectedNode st;
     highlightedNodeId := highlightedNodeId st;
     assetTerminalFilter := assetTerminalFilter st |}.

Definition setSeverityFilter (v : string) (st : State) : State :=
  {| runs := runs st; selectedRun := selectedRun st; snapshot := snapshot st;
     loading := loading st; error := error st; toolCalls := toolCalls st;
     terminalFilters := terminalFilters st; agentFilter := agentFilter st;
     severityFilter := v; timeRange := timeRange st;
     selectedNode := selectedNode st;
     highlightedNodeId := highlightedNodeId st;
     assetTerminalFilter := assetTerminalFilter st |}.

Definition setSelectedNode (v : option GraphSelection) (st : State) : State :=
  {| runs := runs st; selectedRun := selectedRun st; snapshot := snapshot st;
     loading := loading st; error := error st; toolCalls := toolCalls st;
     terminalFilters := terminalFilters st; agentFilter := agentFilter st;
     severityFilter := severityFilter st; timeRange := timeRange st;
     selectedNode := v;
     highlightedNodeId := highlightedNodeId st;
     assetTerminalFilter := assetTerminalFilter st |}.

Definition setHighlightedNodeId (v : option string) (st : State) : State :=
  {| runs := runs st; selectedRun := selectedRun st; snapshot := snapshot st;
     loading := loading st; error := error st; toolCalls := toolCalls st;
     terminalFilters := terminalFilters st; agentFilter := agentFilter st;
     severityFilter := severityFilter st; timeRange := timeRange st;
     selectedNode := selectedNode st;
     highlightedNodeId := v;
     assetTerminalFilter := assetTerminalFilter st |}.

Definition setAssetTerminalFilter (v : option string) (st : State) : State :=
  {| runs := runs st; selectedRun := selectedRun st; snapshot := snapshot st;
     loading := loading st; error := error st; toolCalls := toolCalls st;
     terminalFilters := terminalFilters st; agentFilter := agentFilter st;
     severityFilter := severityFilter st; timeRange := timeRange st;
     selectedNode := selectedNode st;
     highlightedNodeId := highlightedNodeId st;
     assetTerminalFilter := v |}.

(** [{ ...current, agentId: v }] *)
Definition withAgentId (v : string) (current : TerminalFilters) : TerminalFilters :=
  {| agentId := v; tool := tool current;
     onlyErrors := onlyErrors current; onlySuccess := onlySuccess current |}.

(** *** Snapshot store *)

(** What a [catch] clause can receive: an [Error] with its message, or
    anything else. *)
Inductive thrown :=
| ErrorObject (message : string)
| OtherThrown.

(** How [response.json()] settles: rejected (the body does not parse),
    resolved with [null], or resolved with a snapshot.  [typeError] is the
    message of the [TypeError] that reading [tool_calls] of [null] raises;
    its wording is the engine's. *)
Inductive json_result :=
| JsonRejected (e : thrown)
| JsonNull (typeError : string)
| JsonData (data : Snapshot.t).

(** How [fetch] settles: rejected (network failure), or a response with
    its status line and body. *)
Inductive fetch_result :=
| FetchRejected (e : thrown)
| Responded (status : nat) (statusText : string) (body : json_result).

(** [response.ok]: the status is in the range 200-299. *)
Definition ok (status : nat) : bool :=
  ((200 <=? status) && (status <=? 299))%nat.

Definition string_of_nat (n : nat) : string :=
  NilEmpty.string_of_uint (Nat.to_uint n).

(** [loadSnapshot] up to its first [await]. *)
Definition loadSnapshot_begin (runId : string) (st : State) : State :=
  setError None (setLoading true st).

(** The body of the [try] once the fetch has settled: the state reached
    when the block ends or throws, and the value thrown, if any.  With a
    [null] body [setSnapshot(data)] has run when [data.tool_calls] throws. *)
Definition loadSnapshot_try (r : fetch_result) (st : State)
  : State * option thrown :=
  match r with
  | FetchRejected e => (st, Some e)
  | Responded status statusText body =>
      if negb (ok status) then
        (st, Some (ErrorObject (string_of_nat status ++ " " ++ statusText)))
      else
        match body with
        | JsonRejected e => (st, Some e)
        | JsonNull typeError =>
            (setSnapshot None st, Some (ErrorObject typeError))
        | JsonData data =>
            (setToolCalls
               (fun _ => orElse (Snapshot.tool_calls data) [])
               (setSnapshot (Some data) st),
             None)
        end
  end.

(** [loadSnapshot] from the settling of the fetch on.  [runId] is the
    argument the call was made with; it only built the URL. *)
Definition loadSnapshot_settle (runId : string) (r : fetch_result)
           (st : State) : State :=
  let st' :=
    match loadSnapshot_try r st with
    | (reached, None) => reached
    | (reached, Some loadError) =>
        setError
          (Some match loadError with
                | ErrorObject message => message
                | OtherThrown => "Failed to load snapshot"
                end)
          reached
    end in
  setLoading false st'.

(** *** Live event ingester *)

(** [now] is [new Date().toISOString()] and [rnd] is
    [Math.random().toString(36).slice(2)] at the time of the call. *)
Definition mapEventToToolCall (now rnd : string) (event : LiveEvent.t) : ToolCall.t :=
  let now := orElse (LiveEvent.ts event) now in
  {| ToolCall.id := "live-" ++ rnd;
     ToolCall.ts := now;
     ToolCall.agent_id := string_or_undefined (LiveEvent.get event "agent_id");
     ToolCall.tool := string_or_undefined (LiveEvent.get event "tool");
     ToolCall.target := string_or_undefined (LiveEvent.get event "target");
     ToolCall.status := string_or_undefined (LiveEvent.get event "status");
     ToolCall.summary := string_or_undefined (LiveEvent.get event "result_summary");
     ToolCall.args :=
       if truthy (LiveEvent.get event "args")
          && (typeof (LiveEvent.get event "args") =? "object")
       then LiveEvent.get event "args"
       else JObj [];
     ToolCall.result_summary :=
       string_or_undefined (LiveEvent.get event "result_summary") |}.

Definition isSameToolCall (a b : ToolCall.t) : bool :=
  (ToolCall.ts a =? ToolCall.ts b)
  && strict_eq (ToolCall.agent_id a) (ToolCall.agent_id b)
  && strict_eq (ToolCall.tool a) (ToolCall.tool b)
  && strict_eq (ToolCall.target a) (ToolCall.target b)
  && strict_eq (ToolCall.result_summary a) (ToolCall.result_summary b).

(** The updater handed to [setToolCalls] by [socket.onmessage]. *)
Definition appendUnlessPresent (call : ToolCall.t)
           (current : list ToolCall.t) : list ToolCall.t :=
  if existsb (fun existing => isSameToolCall existing call) current
  then current
  else (current ++ [call])%list.

(** How [JSON.parse(event.data)] ends. *)
Inductive parse_result :=
| ParseFailed
| Parsed (payload : LiveEvent.t).

(** [socket.onmessage], state part.  The [finally] block only arms the
    refresh timer, which touches no state cell until it fires. *)
Definition socket_onmessage (now rnd : string) (data : parse_result)
           (st : State) : State :=
  match data with
  | ParseFailed => st
  | Parsed payload =>
      match LiveEvent.type payload with
      | Some "mcp_tool_call" =>
          let call := mapEventToToolCall now rnd payload in
          setToolCalls (appendUnlessPresent call) st
      | _ => st
      end
  end.

(** *** Selection coordinator *)

(** [const [, rawId] = selection.id.split(":", 2)] *)
Definition rawIdOf (id : string) : option string :=
  second (split_limit ":" 2 id).

(** [snapshot?.vulnerabilities.find(c => c.id === (rawId ?? ""))] *)
Definition findVuln (snapshot : option Snapshot.t) (rawId : option string)
  : option Vulnerability.t :=
  match snapshot with
  | None => None
  | Some s =>
      find (fun candidate => Vulnerability.id candidate =? orElse rawId "")
           (Snapshot.vulnerabilities s)
  end.

Definition handleNodeSelect (selection : option GraphSelection)
           (st : State) : State :=
  let st := setSelectedNode selection st in
  match selection with
  | None => setAssetTerminalFilter None (setHighlightedNodeId None st)
  | Some sel =>
      let st := setHighlightedNodeId (Some (id sel)) st in
      let rawId := rawIdOf (id sel) in
      match entityType sel with
      | agent =>
          let st := setAgentFilter (orElse rawId "all") st in
          let st := setTerminalFilters (withAgentId (orElse rawId "all")) st in
          setAssetTerminalFilter None st
      | asset => setAssetTerminalFilter rawId st
      | vuln =>
          let v := findVuln (snapshot st) rawId in
          let asset_id :=
            match v with Some x => Vulnerability.asset_id x | None => Undefined end in
          let agent_id :=
            match v with Some x => Vulnerability.agent_id x | None => Undefined end in
          let st :=
            if truthy_str asset_id
            then setAssetTerminalFilter (Some (nullish asset_id "")) st
            else st in
          if truthy_str agent_id
          then setTerminalFilters (withAgentId (nullish agent_id "all")) st
          else st
      end
  end.

Definition handleTerminalSelect (call : ToolCall.t) (st : State) : State :=
  if truthy_str (ToolCall.target call) then
    setHighlightedNodeId (Some ("asset:" ++ nullish (ToolCall.target call) "")) st
  else if truthy_str (ToolCall.agent_id call) then
    setHighlightedNodeId (Some ("agent:" ++ nullish (ToolCall.agent_id call) "")) st
  else st.

Definition handleRunChange (value : string) (st : State) : State :=
  let st := setSelectedRun value st in
  let st := setTerminalFilters (fun _ => defaultTerminalFilters) st in
  let st := setAgentFilter "all" st in
  let st := setSeverityFilter "all" st in
  setAssetTerminalFilter None st.

(** The effect that depends on [selectedRun]: it requests the snapshot
    of the run now selected. *)
Definition selectedRunEffect (st : State) : State :=
  if negb (selectedRun st =? "") then loadSnapshot_begin (selectedRun st) st
  else st.

(** *** The events the shell reacts to *)

Inductive Action :=
| RunChange (value : string)
| SnapshotSettled (runId : string) (r : fetch_result)
| Message (now rnd : string) (data : parse_result)
| NodeSelect (selection : option GraphSelection)
| TerminalSelect (call : ToolCall.t).

Definition step (st : State) (a : Action) : State :=
  match a with
  | RunChange value => selectedRunEffect (handleRunChange value st)
  | SnapshotSettled runId r => loadSnapshot_settle runId r st
  | Message now rnd data => socket_onmessage now rnd data st
  | NodeSelect selection => handleNodeSelect selection st
  | TerminalSelect call => handleTerminalSelect call st
  end.

Definition run (trace : list Action) (st : State) : State :=
  fold_left step trace st.

(** *** Vocabulary of the properties *)

(** The natural key of a ToolCall: the five fields [isSameToolCall]
    compares. *)
Definition dedupKey (c : ToolCall.t)
  : string * nullable string * nullable string * nullable string * nullable string :=
  (ToolCall.ts c, ToolCall.agent_id c, ToolCall.tool c, ToolCall.target c,
   ToolCall.result_summary c).

(** A fetch that failed: no response at all, or a status outside 200-299. *)
Definition isFetchFailure (r : fetch_result) : bool :=
  match r with
  | FetchRejected _ => true
  | Responded status _ _ => negb (ok status)
  end.

(** The ids of the assets of the snapshot held, none while there is no
    snapshot. *)
Definition assetIds (snapshot : option Snapshot.t) : list string :=
  match snapshot with
  | None => []
  | Some s => map Asset.id (Snapshot.assets s)
  end.

(** Terminal filters with the two status toggles set. *)
Definition withToggles (errors success : bool) (f : TerminalFilters)
  : TerminalFilters :=
  {| agentId := agentId f; tool := tool f;
     onlyErrors := errors; onlySuccess := success |}.

(** *** Run list *)

Definition setRuns (v : list RunMetadata.t) (st : State) : State :=
  {| runs := v; selectedRun := selectedRun st; snapshot := snapshot st;
     loading := loading st; error := error st; toolCalls := toolCalls st;
     terminalFilters := terminalFilters st; agentFilter := agentFilter st;
     severityFilter := severityFilter st; timeRange := timeRange st;
     selectedNode := selectedNode st;
     highlightedNodeId := highlightedNodeId st;
     assetTerminalFilter := assetTerminalFilter st |}.

Definition setTimeRange (v : string) (st : State) : State :=
  {| runs := runs st; selectedRun := selectedRun st; snapshot := snapshot st;
     loading := loading st; error := error st; toolCalls := toolCalls st;
     terminalFilters := terminalFilters st; agentFilter := agentFilter st;
     severityFilter := severityFilter st; timeRange := v;
     selectedNode := selectedNode st;
     highlightedNodeId := highlightedNodeId st;
     assetTerminalFilter := assetTerminalFilter st |}.

(** How the request for the run list settles.  [fetch] and
    [response.json()] reject with an [Error] ([TypeError], [SyntaxError]),
    of which only the message is read. *)
Inductive runs_body :=
| RunsJsonRejected (message : string)
| RunsData (data : list RunMetadata.t).

Inductive runs_result :=
| RunsRejected (message : string)
| RunsResponded (status : nat) (body : runs_body).

(** [fetchRuns] from the settling of the fetch on, together with the
    [.catch] of the effect that calls it.  [selectedRun] is the value the
    callback closed over. *)
Definition fetchRuns_settle (selectedRun : string) (r : runs_result)
           (st : State) : State :=
  match r with
  | RunsRejected message => setError (Some message) st
  | RunsResponded status body =>
      if negb (ok status) then setError (Some "Unable to fetch runs") st
      else
        match body with
        | RunsJsonRejected message => setError (Some message) st
        | RunsData data =>
            let st := setRuns data st in
            match data with
            | [] => setSelectedRun "" st
            | first :: _ =>
                let currentExists :=
                  existsb (fun run => RunMetadata.id run =? selectedRun) data in
                if (selectedRun =? "") || negb currentExists
                then setSelectedRun (RunMetadata.id first) st
                else st
            end
        end
  end.

(** *** Values derived for the two views *)

(** [computeThreshold], with [now] for [Date.now()]. *)
Definition computeThreshold (now : Z) (range : string) : Z :=
  if range =? "5m" then (now - 5 * 60 * 1000)%Z
  else if range =? "15m" then (now - 15 * 60 * 1000)%Z
  else if range =? "1h" then (now - 60 * 60 * 1000)%Z
  else 0%Z.

Section TimeFilter.
(** [getTime ts] stands for [new Date(ts).getTime()]: the milliseconds of
    a date string, [None] for the [NaN] of an invalid date, which no
    comparison accepts. *)
Variable getTime : string -> option Z.
Variable now : Z.

Definition timeFilteredCalls (toolCalls : list ToolCall.t) (timeRange : string)
  : list ToolCall.t :=
  if timeRange =? "all" then toolCalls
  else
    let threshold := computeThreshold now timeRange in
    filter (fun call =>
              match getTime (ToolCall.ts call) with
              | Some t => (threshold <=? t)%Z
              | None => false
              end)
           toolCalls.
End TimeFilter.

Definition matchesAsset (assetTerminalFilter : string) (call : ToolCall.t) : bool :=
  strict_eq_str (ToolCall.target call) assetTerminalFilter
  || value_is_string (args_url (ToolCall.args call)) assetTerminalFilter.

Definition assetFilteredCalls (timeFilteredCalls : list ToolCall.t)
           (assetTerminalFilter : option string) : list ToolCall.t :=
  match assetTerminalFilter with
  | None => timeFilteredCalls
  | Some f =>
      if f =? "" then timeFilteredCalls
      else filter (matchesAsset f) timeFilteredCalls
  end.

Definition severityOptions (snapshot : option Snapshot.t) : list string :=
  match snapshot with
  | None => []
  | Some s =>
      Set_new
        (truthyStrings
           (map (fun vuln => toLowerCase_opt (Vulnerability.severity vuln))
                (Snapshot.vulnerabilities s)))
  end.

Definition agentOptions (snapshot : option Snapshot.t) : list Agent.t :=
  match snapshot with
  | None => []
  | Some s => Snapshot.agents s
  end.

End App.

(** ** The effect that keeps the live connection (App.tsx) *)

Module LiveSocket.
Import App.

(** What the effect and the browser hold for one run: the application
    state, the run the effect was started for, the socket, the closure
    variable [refreshHandle], and the browser's table of armed timers (handle
    and due time in milliseconds) with the next handle it will give out.
    Timer handles are positive integers. *)
Record Live :=
  { app : State;
    run_of : string;
    socketOpen : bool;
    refreshHandle : option positive;
    timers : list (positive * Z);
    nextHandle : positive }.

(** The effect body: nothing happens while no run is selected. *)
Definition attach (st : State) : option Live :=
  if selectedRun st =? "" then None
  else Some {| app := st; run_of := selectedRun st; socketOpen := true;
               refreshHandle := None; timers := []; nextHandle := 1%positive |}.

Definition withApp (st : State) (l : Live) : Live :=
  {| app := st; run_of := run_of l; socketOpen := socketOpen l;
     refreshHandle := refreshHandle l; timers := timers l;
     nextHandle := nextHandle l |}.

(** [scheduleRefresh] at clock reading [now]. *)
Definition scheduleRefresh (now : Z) (l : Live) : Live :=
  match refreshHandle l with
  | Some _ => l
  | None =>
      {| app := app l; run_of := run_of l; socketOpen := socketOpen l;
         refreshHandle := Some (nextHandle l);
         timers := (timers l ++ [(nextHandle l, (now + 750)%Z)])%list;
         nextHandle := Pos.succ (nextHandle l) |}
  end.

Definition dropTimer (h : positive) (ts : list (positive * Z)) : list (positive * Z) :=
  filter (fun t => negb (Pos.eqb (fst t) h)) ts.

(** [socket.onmessage]: the state part, then the [finally] block. *)
Definition onmessage (nowIso rnd : string) (now : Z) (data : parse_result)
           (l : Live) : Live :=
  scheduleRefresh now (withApp (socket_onmessage nowIso rnd data (app l)) l).

(** The browser fires the armed timer [h]: the callback resets
    [refreshHandle] and starts [loadSnapshot] for the effect's run.  A
    handle that is not armed fires nothing. *)
Definition timerFires (h : positive) (l : Live) : Live :=
  if existsb (fun t => Pos.eqb (fst t) h) (timers l) then
    {| app := loadSnapshot_begin (run_of l) (app l); run_of := run_of l;
       socketOpen := socketOpen l; refreshHandle := None;
       timers := dropTimer h (timers l); nextHandle := nextHandle l |}
  else l.

Definition onerror (l : Live) : Live :=
  withApp (setError (Some "WebSocket connection lost") (app l)) l.

(** The cleanup returned by the effect. *)
Definition cleanup (l : Live) : Live :=
  {| app := app l; run_of := run_of l; socketOpen := false;
     refreshHandle := refreshHandle l;
     timers := match refreshHandle l with
               | Some h => dropTimer h (timers l)
               | None => timers l
               end;
     nextHandle := nextHandle l |}.

Inductive LiveAction :=
| OnMessage (nowIso rnd : string) (now : Z) (data : parse_result)
| TimerFires (h : positive)
| OnError.

Definition liveStep (l : Live) (a : LiveAction) : Live :=
  match a with
  | OnMessage nowIso rnd now data => onmessage nowIso rnd now data l
  | TimerFires h => timerFires h l
  | OnError => onerror l
  end.

Definition liveRun (trace : list LiveAction) (l : Live) : Live :=
  fold_left liveStep trace l.

End LiveSocket.

(** ** Details panel (NodeDetailsPanel.tsx) *)

Module NodeDetailsPanel.
Import GraphView.

(** What the panel renders: the placeholder, nothing at all, or the details
    of one entity with the lists shown under it. *)
Inductive View :=
| Placeholder
| Nothing
| AgentDetails (agent : Agent.t) (associatedAssets : list string)
| AssetDetails (asset : Asset.t) (incomingAgents : list Edge.t)
               (relatedVulns : list Vulnerability.t)
| VulnDetails (vuln : Vulnerability.t).

Definition entityTypeName (t : EntityType) : string :=
  match t with
  | agent => "agent"
  | asset => "asset"
  | vuln => "vuln"
  end.

(** [selection.id.includes(":") ? selection.id.split(":", 2)
                               : [selection.entityType, selection.id]] *)
Definition parts (selection : GraphSelection) : list string :=
  if includes ":" (id selection) then split_limit ":" 2 (id selection)
  else [entityTypeName (entityType selection); id selection].

(** [x === s] where [x] may be [undefined]. *)
Definition equals (x : option string) (s : string) : bool :=
  match x with
  | Some y => y =? s
  | None => false
  end.

Definition render (selection : option GraphSelection)
           (snapshot : option Snapshot.t) : View :=
  match selection, snapshot with
  | Some selection, Some snapshot =>
      let entityType := nth_error (parts selection) 0 in
      let rawId := nth_error (parts selection) 1 in
      if equals entityType "agent" then
        match find (fun candidate => equals rawId (Agent.id candidate))
                   (Snapshot.agents snapshot) with
        | None => Nothing
        | Some theAgent =>
            AgentDetails theAgent
              (map Edge.target
                   (filter (fun edge => Edge.source edge =? Agent.id theAgent)
                           (Snapshot.edges snapshot)))
        end
      else if equals entityType "asset" then
        match find (fun candidate => equals rawId (Asset.id candidate))
                   (Snapshot.assets snapshot) with
        | None => Nothing
        | Some theAsset =>
            let agentIds := Set_new (map Agent.id (Snapshot.agents snapshot)) in
            AssetDetails theAsset
              (filter (fun edge => (Edge.target edge =? Asset.id theAsset)
                                   && Set_has agentIds (Edge.source edge))
                      (Snapshot.edges snapshot))
              (filter (fun v => strict_eq_str (Vulnerability.asset_id v)
                                                 (Asset.id theAsset))
                      (Snapshot.vulnerabilities snapshot))
        end
      else
        match find (fun candidate => equals rawId (Vulnerability.id candidate))
                   (Snapshot.vulnerabilities snapshot) with
        | None => Nothing
        | Some theVuln => VulnDetails theVuln
        end
  | _, _ => Placeholder
  end.

End NodeDetailsPanel.

(** ** Traces of live messages *)

Module Messages.
Import App.

(** The actions of a sequence of messages, each with the clock reading and
    random token of its arrival. *)
Definition actions (msgs : list (string * string * parse_result)) : list Action :=
  map (fun m => Message (fst (fst m)) (snd (fst m)) (snd m)) msgs.

End Messages.

(** ** Sample data for the scenarios *)

Module Scenario.
Import GraphView TerminalView App.

Definition agent_a1 : Agent.t :=
  {| Agent.id := "a1"; Agent.label := "recon";
     Agent.first_seen := "2024-05-01T10:00:00Z";
     Agent.last_seen := "2024-05-01T10:05:00Z" |}.

Definition asset_s1 : Asset.t :=
  {| Asset.id := "s1"; Asset.label := "shop"; Asset.url := "http://shop.test";
     Asset.first_seen := "2024-05-01T10:00:00Z";
     Asset.last_seen := "2024-05-01T10:05:00Z" |}.

Definition vuln_low : Vulnerability.t :=
  {| Vulnerability.id := "v1"; Vulnerability.agent_id := Val "a1";
     Vulnerability.asset_id := Val "s1"; Vulnerability.severity := Val "Low";
     Vulnerability.category := Null; Vulnerability.description := Null;
     Vulnerability.ts := "2024-05-01T10:02:00Z" |}.

(** A vulnerability reported without a severity. *)
Definition vuln_unrated : Vulnerability.t :=
  {| Vulnerability.id := "v2"; Vulnerability.agent_id := Null;
     Vulnerability.asset_id := Null; Vulnerability.severity := Null;
     Vulnerability.category := Null; Vulnerability.description := Null;
     Vulnerability.ts := "2024-05-01T10:03:00Z" |}.

(** An edge from agent a1 to an id that names no entity. *)
Definition edge_dangling : Edge.t :=
  {| Edge.id := "e1"; Edge.source := "a1"; Edge.target := "ghost";
     Edge.relation := "touched"; Edge.label := Null |}.

Definition call_of (id ts : string) (target status : nullable string) : ToolCall.t :=
  {| ToolCall.id := id; ToolCall.ts := ts; ToolCall.agent_id := Val "a1";
     ToolCall.tool := Val "http.get"; ToolCall.target := target;
     ToolCall.status := status; ToolCall.summary := Null;
     ToolCall.args := JObj []; ToolCall.result_summary := Null |}.

Definition call_a : ToolCall.t :=
  call_of "c-a" "2024-05-01T10:01:00Z" (Val "s1") (Val "OK").
Definition call_b : ToolCall.t :=
  call_of "c-b" "2024-06-01T08:00:00Z" Null (Val "FAILED").
Definition call_nostatus : ToolCall.t :=
  call_of "c-n" "2024-06-01T08:01:00Z" (Val "nowhere") Undefined.

Definition snapshot_a : Snapshot.t :=
  {| Snapshot.run_id := "run-a";
     Snapshot.agents := [agent_a1];
     Snapshot.assets := [asset_s1];
     Snapshot.vulnerabilities := [vuln_low; vuln_unrated];
     Snapshot.edges := [edge_dangling];
     Snapshot.tool_calls := Some [call_a];
     Snapshot.last_event_ts := Null |}.

Definition snapshot_b : Snapshot.t :=
  {| Snapshot.run_id := "run-b";
     Snapshot.agents := [];
     Snapshot.assets := [];
     Snapshot.vulnerabilities := [];
     Snapshot.edges := [];
     Snapshot.tool_calls := Some [call_b];
     Snapshot.last_event_ts := Null |}.

Definition select_agent_a1 : GraphSelection :=
  {| id := "agent:a1"; entityType := agent |}.

(** A state showing run-a. *)
Definition showing_a : State :=
  loadSnapshot_settle "run-a" (Responded 200 "OK" (JsonData snapshot_a))
    (step initialState (RunChange "run-a")).

(** The user switches from run-a to run-b while the snapshot of run-a is
    still on its way; the answer for run-b arrives first. *)
Definition late_response_trace : list Action :=
  [ RunChange "run-a";
    RunChange "run-b";
    SnapshotSettled "run-b" (Responded 200 "OK" (JsonData snapshot_b));
    SnapshotSettled "run-a" (Responded 200 "OK" (JsonData snapshot_a)) ].

(** A live tool call that carries its own time stamp, and one that does
    not. *)
Definition event_stamped : LiveEvent.t :=
  {| LiveEvent.type := Some "mcp_tool_call";
     LiveEvent.ts := Some "2024-05-01T10:06:00Z";
     LiveEvent.rest :=
       [("agent_id", JStr "a1"); ("tool", JStr "nmap"); ("target", JStr "s1");
        ("summary", JStr "scan started"); ("args", JNum 7)] |}.

Definition event_unstamped : LiveEvent.t :=
  {| LiveEvent.type := Some "mcp_tool_call";
     LiveEvent.ts := None;
     LiveEvent.rest := [("agent_id", JStr "a1"); ("tool", JStr "nmap")] |}.

Definition event_two_summaries : LiveEvent.t :=
  {| LiveEvent.type := Some "mcp_tool_call";
     LiveEvent.ts := Some "2024-05-01T10:07:00Z";
     LiveEvent.rest :=
       [("summary", JStr "scan started");
        ("result_summary", JStr "3 ports open")] |}.

(** Run-a with an edge between two known entities, and with the id a1
    listed twice among the agents. *)
Definition snapshot_edges : Snapshot.t :=
  {| Snapshot.run_id := "run-a";
     Snapshot.agents := [agent_a1; agent_a1];
     Snapshot.assets := [asset_s1];
     Snapshot.vulnerabilities := [vuln_low];
     Snapshot.edges :=
       [ {| Edge.id := "e2"; Edge.source := "a1"; Edge.target := "s1";
            Edge.relation := "touched"; Edge.label := Null |};
         edge_dangling ];
     Snapshot.tool_calls := None;
     Snapshot.last_event_ts := Null |}.

Definition run_list : list RunMetadata.t :=
  [ {| RunMetadata.id := "run-a"; RunMetadata.created_at := None;
       RunMetadata.event_count := 12 |};
    {| RunMetadata.id := "run-b"; RunMetadata.created_at := None;
       RunMetadata.event_count := 3 |} ].

(** A burst on the live connection: a tool call, a line that does not
    parse, a connection error, an event of another type. *)
Definition burst : list LiveSocket.LiveAction :=
  [ LiveSocket.OnMessage "2024-05-01T10:06:00.000Z" "k3x9" 1000 (Parsed event_stamped);
    LiveSocket.OnMessage "2024-05-01T10:06:00.100Z" "p0q2" 1100 ParseFailed;
    LiveSocket.OnError;
    LiveSocket.OnMessage "2024-05-01T10:06:00.700Z" "z7d1" 1700
      (Parsed {| LiveEvent.type := Some "agent_spawned"; LiveEvent.ts := None;
                 LiveEvent.rest := [] |}) ].

(** The effect attached to run-a. *)
Definition live_a : LiveSocket.Live :=
  {| LiveSocket.app := showing_a; LiveSocket.run_of := "run-a";
     LiveSocket.socketOpen := true; LiveSocket.refreshHandle := None;
     LiveSocket.timers := []; LiveSocket.nextHandle := 1%positive |}.

(** The same burst as seen by the message handler alone. *)
Definition burst_messages : list (string * string * parse_result) :=
  [ ("2024-05-01T10:06:00.000Z", "k3x9", Parsed event_stamped);
    ("2024-05-01T10:06:00.100Z", "p0q2", ParseFailed);
    ("2024-05-01T10:06:00.700Z", "z7d1", Parsed event_stamped) ].

(** A snapshot that holds one agent and nothing else. *)
Definition snapshot_agent_only : Snapshot.t :=
  {| Snapshot.run_id := "run-c";
     Snapshot.agents := [agent_a1];
     Snapshot.assets := [];
     Snapshot.vulnerabilities := [];
     Snapshot.edges := [];
     Snapshot.tool_calls := None;
     Snapshot.last_event_ts := Null |}.

(** A call whose target holds two double quotes: x, a double quote, the
    word or between spaces, a double quote, and 1. *)
Definition quoted_target : string :=
  "x" ++ String doubleQuote (" or " ++ String doubleQuote "1").

Definition call_quoted : ToolCall.t :=
  call_of "c-q" "2024-06-01T08:02:00Z" (Val quoted_target) Undefined.

(** Cytoscape's answer to the selector built for that target: the text is
    not a well-formed selector, and Cytoscape then selects every node. *)
Definition every_node : string -> list CyNode -> list CyNode :=
  fun _ cy => cy.

End Scenario.

(** * Properties *)

Import GraphView TerminalView App.

(** ** Helper lemmas *)

Lemma strict_eq_iff (a b : nullable string) : strict_eq a b = true <-> a = b.
Proof.
  destruct a, b; simpl; split; intro H; try reflexivity; try discriminate.
  - apply String.eqb_eq in H. now subst.
  - inversion H. apply String.eqb_refl.
Qed.

Lemma isSameToolCall_iff (a b : ToolCall.t) :
  isSameToolCall a b = true <-> dedupKey a = dedupKey b.
Proof.
  unfold isSameToolCall, dedupKey.
  rewrite !andb_true_iff, String.eqb_eq, !strict_eq_iff.
  split.
  - intros [[[[-> ->] ->] ->] ->]. reflexivity.
  - intro H. inversion H. repeat split; reflexivity.
Qed.

Lemma existsb_same_iff (call : ToolCall.t) (current : list ToolCall.t) :
  existsb (fun existing => isSameToolCall existing call) current = true
  <-> exists existing, In existing current /\ dedupKey existing = dedupKey call.
Proof.
  rewrite existsb_exists.
  split; intros [x [Hin Hx]]; exists x; split; auto; now apply isSameToolCall_iff.
Qed.

(** ** Selection coordinator *)

(** C1, as stated, fails: after selecting agent a1 and deselecting, both agent
    filters still hold "a1" instead of the initial "all". *)
Lemma deselect_keeps_agent_filter_counterexample :
  let st := handleNodeSelect None
              (handleNodeSelect (Some Scenario.select_agent_a1) initialState) in
  agentFilter st = "a1"
  /\ agentId (terminalFilters st) = "a1"
  /\ agentFilter initialState = "all"
  /\ agentFilter st <> agentFilter initialState.
Proof. simpl. repeat split; discriminate. Qed.

(** C1 (amended): for every selection state, a deselect sets the selected
    node and the highlight to null and clears the asset-target filter in one
    transition, and leaves the agent filter and the terminal filters as they
    were; so after selecting any entity and deselecting, asset-target filter
    and highlight are back at their initial null values, while the agent
    filters keep what the selection gave them. *)
Theorem deselect_clears_highlight_and_asset_filter :
  forall (st : State),
    (let st' := handleNodeSelect None st in
     selectedNode st' = None
     /\ highlightedNodeId st' = None
     /\ assetTerminalFilter st' = None
     /\ agentFilter st' = agentFilter st
     /\ terminalFilters st' = terminalFilters st)
    /\ (forall sel : GraphSelection,
           let selected := handleNodeSelect (Some sel) st in
           let st' := handleNodeSelect None selected in
           highlightedNodeId st' = highlightedNodeId initialState
           /\ assetTerminalFilter st' = assetTerminalFilter initialState
           /\ agentFilter st' = agentFilter selected
           /\ terminalFilters st' = terminalFilters selected).
Proof.
  intro st. split.
  - simpl. repeat split; reflexivity.
  - intro sel. simpl. repeat split; reflexivity.
Qed.

(** C9, as stated, fails: a run change after selecting agent a1 leaves the
    selected node and the highlight on "agent:a1". *)
Lemma run_change_keeps_selection_counterexample :
  let st := step (step initialState (NodeSelect (Some Scenario.select_agent_a1)))
                 (RunChange "run-b") in
  selectedNode st = Some Scenario.select_agent_a1
  /\ highlightedNodeId st = Some "agent:a1"
  /\ selectedNode initialState = None
  /\ highlightedNodeId initialState = None.
Proof. simpl. repeat split; reflexivity. Qed.

(** C9 (amended): changing the active run selects the new run and, in the
    same transition, clears all derived filters (agent filter, terminal
    filters, severity filter, asset-target filter); the selected node and the
    highlight are left as they were. *)
Theorem run_change_clears_filters :
  forall (value : string) (st : State),
    let st' := step st (RunChange value) in
    selectedRun st' = value
    /\ terminalFilters st' = defaultTerminalFilters
    /\ agentFilter st' = "all"
    /\ severityFilter st' = "all"
    /\ assetTerminalFilter st' = None
    /\ selectedNode st' = selectedNode st
    /\ highlightedNodeId st' = highlightedNodeId st.
Proof.
  intros value st. unfold step, selectedRunEffect.
  destruct (negb (selectedRun (handleRunChange value st) =? "")); simpl;
    repeat split; reflexivity.
Qed.

(** ** Snapshot store *)

Lemma settle_success (runId : string) (status : nat) (statusText : string)
      (data : Snapshot.t) (st : State) :
  ok status = true ->
  loadSnapshot_settle runId (Responded status statusText (JsonData data)) st
  = setLoading false
      (setToolCalls (fun _ => orElse (Snapshot.tool_calls data) [])
                    (setSnapshot (Some data) st)).
Proof.
  intro Hok. unfold loadSnapshot_settle, loadSnapshot_try.
  rewrite Hok. reflexivity.
Qed.

(** C2, as stated, fails: the user goes from run-a to run-b, the snapshot of
    run-b arrives, then the late snapshot of run-a arrives and replaces both
    the snapshot and the tool calls while run-b is the selected run. *)
Lemma late_snapshot_overwrites_counterexample :
  let before := run (firstn 3 Scenario.late_response_trace) initialState in
  let after := run Scenario.late_response_trace initialState in
  selectedRun before = "run-b"
  /\ snapshot before = Some Scenario.snapshot_b
  /\ toolCalls before = [Scenario.call_b]
  /\ selectedRun after = "run-b"
  /\ snapshot after = Some Scenario.snapshot_a
  /\ toolCalls after = [Scenario.call_a]
  /\ Snapshot.run_id Scenario.snapshot_a = "run-a".
Proof. vm_compute. repeat split; reflexivity. Qed.

(** C2 (amended): a snapshot fetch that completes with a 2xx response is
    applied whatever run is selected at that moment: the implementation does
    not compare the response with the selected run id, so a late response for
    an abandoned run replaces the snapshot and the tool-call list, and only
    the selected run id itself is left alone. *)
Theorem snapshot_response_applied_unconditionally :
  forall (runId : string) (status : nat) (statusText : string)
         (data : Snapshot.t) (st : State),
    ok status = true ->
    let st' :=
      loadSnapshot_settle runId (Responded status statusText (JsonData data)) st in
    snapshot st' = Some data
    /\ toolCalls st' = orElse (Snapshot.tool_calls data) []
    /\ selectedRun st' = selectedRun st.
Proof.
  intros runId status statusText data st Hok. cbv zeta.
  rewrite (settle_success runId status statusText data st Hok).
  simpl. repeat split; reflexivity.
Qed.

Lemma snapshot_response_applied_witness :
  ok 200 = true
  /\ (let st' :=
        loadSnapshot_settle "run-a"
          (Responded 200 "OK" (JsonData Scenario.snapshot_a))
          (run (firstn 3 Scenario.late_response_trace) initialState) in
      snapshot st' = Some Scenario.snapshot_a
      /\ toolCalls st' = orElse (Snapshot.tool_calls Scenario.snapshot_a) []
      /\ selectedRun st'
         = selectedRun (run (firstn 3 Scenario.late_response_trace) initialState)).
Proof.
  split.
  - reflexivity.
  - apply (snapshot_response_applied_unconditionally
             "run-a" 200 "OK" Scenario.snapshot_a). reflexivity.
Defined.

(** C6: when a snapshot load fails (the fetch is rejected, or the response
    has a status outside 200-299), the store sets the error state to a
    message (the error's own message, or the status line of the response),
    clears the loading flag, and keeps the snapshot and the tool-call list it
    held. *)
Theorem failed_load_keeps_snapshot :
  forall (runId : string) (r : fetch_result) (st : State),
    isFetchFailure r = true ->
    let st' := loadSnapshot_settle runId r st in
    error st' =
      Some match r with
           | FetchRejected (ErrorObject message) => message
           | FetchRejected OtherThrown => "Failed to load snapshot"
           | Responded status statusText _ =>
               string_of_nat status ++ " " ++ statusText
           end
    /\ snapshot st' = snapshot st
    /\ toolCalls st' = toolCalls st
    /\ loading st' = false.
Proof.
  intros runId r st Hfail. cbv zeta.
  unfold loadSnapshot_settle, loadSnapshot_try.
  destruct r as [[message | ] | status statusText body]; simpl in *.
  - repeat split; reflexivity.
  - repeat split; reflexivity.
  - rewrite Hfail. simpl. repeat split; reflexivity.
Qed.

Lemma failed_load_keeps_snapshot_witness :
  isFetchFailure (Responded 503 "Service Unavailable" (JsonRejected OtherThrown)) = true
  /\ (let st' :=
        loadSnapshot_settle "run-a"
          (Responded 503 "Service Unavailable" (JsonRejected OtherThrown))
          (loadSnapshot_begin "run-a" Scenario.showing_a) in
      error st' = Some "503 Service Unavailable"
      /\ snapshot st' = Some Scenario.snapshot_a
      /\ toolCalls st' = [Scenario.call_a]
      /\ loading st' = false).
Proof.
  split.
  - reflexivity.
  - apply (failed_load_keeps_snapshot "run-a"
             (Responded 503 "Service Unavailable" (JsonRejected OtherThrown))
             (loadSnapshot_begin "run-a" Scenario.showing_a)).
    reflexivity.
Defined.

(** ** Live event ingester *)

Lemma onmessage_tool_call (now rnd : string) (ev : LiveEvent.t) (st : State) :
  LiveEvent.type ev = Some "mcp_tool_call" ->
  toolCalls (socket_onmessage now rnd (Parsed ev) st)
  = appendUnlessPresent (mapEventToToolCall now rnd ev) (toolCalls st).
Proof. intro H. unfold socket_onmessage. rewrite H. reflexivity. Qed.

Lemma appendUnlessPresent_present (call : ToolCall.t) (current : list ToolCall.t) :
  (exists existing, In existing current /\ dedupKey existing = dedupKey call) ->
  appendUnlessPresent call current = current.
Proof.
  intro H. apply existsb_same_iff in H.
  unfold appendUnlessPresent. now rewrite H.
Qed.

Lemma appendUnlessPresent_fresh (call : ToolCall.t) (current : list ToolCall.t) :
  ~ (exists existing, In existing current /\ dedupKey existing = dedupKey call) ->
  appendUnlessPresent call current = (current ++ [call])%list.
Proof.
  intro H. unfold appendUnlessPresent.
  destruct (existsb _ current) eqn:E; [| reflexivity].
  apply existsb_same_iff in E. contradiction.
Qed.

(** Once a call went through [appendUnlessPresent], the list holds an entry
    with its key. *)
Lemma appendUnlessPresent_holds_key (call : ToolCall.t) (current : list ToolCall.t) :
  exists existing,
    In existing (appendUnlessPresent call current)
    /\ dedupKey existing = dedupKey call.
Proof.
  unfold appendUnlessPresent.
  destruct (existsb _ current) eqn:E.
  - now apply existsb_same_iff in E.
  - exists call. split; [| reflexivity].
    apply in_or_app. right. now left.
Qed.

(** The key of a mapped event does not depend on the clock when the event
    carries its own [ts], and never on the random id. *)
Lemma mapped_key_stamped (now1 rnd1 now2 rnd2 : string) (ev : LiveEvent.t) :
  LiveEvent.ts ev <> None ->
  dedupKey (mapEventToToolCall now1 rnd1 ev)
  = dedupKey (mapEventToToolCall now2 rnd2 ev).
Proof.
  intro H. unfold dedupKey, mapEventToToolCall. simpl.
  destruct (LiveEvent.ts ev); [reflexivity | congruence].
Qed.

(** C3, as stated, fails: the same payload without a [ts], received at two
    different clock readings, is appended twice. *)
Lemma unstamped_payload_twice_counterexample :
  let st := run [ Message "2024-05-01T10:06:00.000Z" "k3x9" (Parsed Scenario.event_unstamped);
                  Message "2024-05-01T10:06:00.250Z" "p0q2" (Parsed Scenario.event_unstamped) ]
                initialState in
  length (toolCalls initialState) = 0
  /\ length (toolCalls st) = 2
  /\ map ToolCall.ts (toolCalls st)
     = ["2024-05-01T10:06:00.000Z"; "2024-05-01T10:06:00.250Z"].
Proof. vm_compute. repeat split; reflexivity. Qed.

(** C3 (amended): ingesting a live mcp_tool_call event whose mapped
    (ts, agent_id, tool, target, result_summary) tuple equals that of a
    ToolCall already in the list leaves the list unchanged; so ingesting the
    same payload twice, when the payload carries its own ts, changes nothing
    the second time: the list grows by exactly one entry when no ToolCall
    with that tuple was there before, and by none otherwise. *)
Theorem live_tool_call_deduplicated :
  forall (now1 rnd1 now2 rnd2 : string) (ev : LiveEvent.t) (st : State),
    LiveEvent.type ev = Some "mcp_tool_call" ->
    let call := mapEventToToolCall now1 rnd1 ev in
    let present :=
      exists existing,
        In existing (toolCalls st) /\ dedupKey existing = dedupKey call in
    let st1 := socket_onmessage now1 rnd1 (Parsed ev) st in
    let st2 := socket_onmessage now2 rnd2 (Parsed ev) st1 in
    (present -> toolCalls st1 = toolCalls st)
    /\ (LiveEvent.ts ev <> None ->
        toolCalls st2 = toolCalls st1
        /\ (present -> toolCalls st2 = toolCalls st)
        /\ (~ present ->
            toolCalls st2 = (toolCalls st ++ [call])%list
            /\ length (toolCalls st2) = S (length (toolCalls st)))).
Proof.
  intros now1 rnd1 now2 rnd2 ev st Htype. cbv zeta.
  rewrite !(onmessage_tool_call _ _ ev _ Htype).
  split.
  - apply appendUnlessPresent_present.
  - intro Hts.
    assert (Hsecond :
              appendUnlessPresent (mapEventToToolCall now2 rnd2 ev)
                (appendUnlessPresent (mapEventToToolCall now1 rnd1 ev) (toolCalls st))
              = appendUnlessPresent (mapEventToToolCall now1 rnd1 ev) (toolCalls st)).
    { apply appendUnlessPresent_present.
      rewrite (mapped_key_stamped now2 rnd2 now1 rnd1 ev Hts).
      apply appendUnlessPresent_holds_key. }
    rewrite Hsecond. split; [reflexivity |]. split.
    + apply appendUnlessPresent_present.
    + intro Hfresh. rewrite (appendUnlessPresent_fresh _ _ Hfresh).
      split; [reflexivity |].
      rewrite length_app. simpl. lia.
Qed.

Lemma live_tool_call_deduplicated_witness :
  LiveEvent.type Scenario.event_stamped = Some "mcp_tool_call"
  /\ length (toolCalls
               (run [ Message "2024-05-01T10:06:00.000Z" "k3x9" (Parsed Scenario.event_stamped);
                      Message "2024-05-01T10:06:00.250Z" "p0q2" (Parsed Scenario.event_stamped) ]
                    Scenario.showing_a))
     = S (length (toolCalls Scenario.showing_a)).
Proof.
  split.
  - reflexivity.
  - apply (live_tool_call_deduplicated
             "2024-05-01T10:06:00.000Z" "k3x9" "2024-05-01T10:06:00.250Z" "p0q2"
             Scenario.event_stamped Scenario.showing_a eq_refl).
    + discriminate.
    + intros [existing [Hin Hkey]].
      destruct Hin as [<- | []]. discriminate Hkey.
Defined.

(** C5: the code copies [result_summary] into both [summary] and
    [result_summary]; the event's own [summary] is never read.  At an event
    with summary "scan started" and no result_summary the ToolCall has no
    summary; at an event with both, the ToolCall's summary is the
    result_summary.  The [args] part of the claim holds: a number is not
    object-typed and yields the empty mapping. *)
Theorem event_summary_not_copied :
  LiveEvent.get Scenario.event_stamped "summary" = JStr "scan started"
  /\ ToolCall.summary (mapEventToToolCall "now" "r" Scenario.event_stamped) = Undefined
  /\ LiveEvent.get Scenario.event_two_summaries "summary" = JStr "scan started"
  /\ ToolCall.summary (mapEventToToolCall "now" "r" Scenario.event_two_summaries)
     = Val "3 ports open"
  /\ ToolCall.result_summary (mapEventToToolCall "now" "r" Scenario.event_two_summaries)
     = Val "3 ports open"
  /\ ToolCall.args (mapEventToToolCall "now" "r" Scenario.event_stamped) = JObj [].
Proof. vm_compute. repeat split; reflexivity. Qed.

(** What [mapEventToToolCall] does for every event: [summary] and
    [result_summary] both hold the event's [result_summary] when that is a
    string and are absent otherwise; [args] is the event's [args] when that is
    an object or an array, and the empty mapping otherwise. *)
Lemma mapEventToToolCall_fields (now rnd : string) (event : LiveEvent.t) :
  let call := mapEventToToolCall now rnd event in
  ToolCall.summary call = ToolCall.result_summary call
  /\ ToolCall.result_summary call
     = match LiveEvent.get event "result_summary" with
       | JStr s => Val s
       | _ => Undefined
       end
  /\ ToolCall.args call
     = match LiveEvent.get event "args" with
       | JArr items => JArr items
       | JObj props => JObj props
       | _ => JObj []
       end.
Proof.
  simpl. split; [reflexivity |]. split.
  - destruct (LiveEvent.get event "result_summary"); reflexivity.
  - destruct (LiveEvent.get event "args") as [ | | [] | n | s | | ]; simpl;
      try reflexivity.
    + destruct (negb (n =? 0)%Z); reflexivity.
    + destruct (negb (s =? "")); reflexivity.
Qed.

(** ** Filter pipeline: status filter of the terminal *)

Lemma filter_twice {A} (p q : A -> bool) (l : list A) :
  filter p (filter q l) = filter (fun x => q x && p x) l.
Proof.
  induction l as [| x l IH]; simpl; [reflexivity |].
  destruct (q x); simpl; [destruct (p x) |]; now rewrite IH.
Qed.

Lemma isError_iff (call : ToolCall.t) :
  isError call = true
  <-> normalizedStatus call <> ""
      /\ normalizedStatus call <> "ok"
      /\ normalizedStatus call <> "success".
Proof.
  unfold isError.
  rewrite !andb_true_iff, !negb_true_iff, !String.eqb_neq. tauto.
Qed.

Lemma isSuccess_iff (call : ToolCall.t) :
  isSuccess call = true
  <-> normalizedStatus call = "ok" \/ normalizedStatus call = "success".
Proof. unfold isSuccess. now rewrite orb_true_iff, !String.eqb_eq. Qed.

Lemma not_error_and_success (call : ToolCall.t) :
  isError call && isSuccess call = false.
Proof.
  destruct (isError call) eqn:E, (isSuccess call) eqn:S; try reflexivity.
  apply isError_iff in E. apply isSuccess_iff in S. tauto.
Qed.

Lemma keepCall_only_errors (f : TerminalFilters) (call : ToolCall.t) :
  onlyErrors f = true -> keepCall f call = true -> isError call = true.
Proof.
  unfold keepCall. intros ->.
  destruct (_ && _); [discriminate |].
  destruct (_ && _); [discriminate |].
  destruct (isError call); [reflexivity | discriminate].
Qed.

Lemma keepCall_only_success (f : TerminalFilters) (call : ToolCall.t) :
  onlySuccess f = true -> keepCall f call = true -> isSuccess call = true.
Proof.
  unfold keepCall. intros ->.
  destruct (_ && _); [discriminate |].
  destruct (_ && _); [discriminate |].
  destruct (_ && _); [discriminate |].
  destruct (isSuccess call); [reflexivity | discriminate].
Qed.

Lemma keepCall_both_toggles (f : TerminalFilters) (call : ToolCall.t) :
  keepCall (withToggles true true f) call
  = keepCall (withToggles true false f) call
    && keepCall (withToggles false true f) call.
Proof.
  unfold keepCall, withToggles. simpl.
  destruct (negb (agentId f =? "all") && _); [reflexivity |].
  destruct (negb (tool f =? "all") && _); [reflexivity |].
  destruct (isError call), (isSuccess call); reflexivity.
Qed.

(** Scenario D on three calls: status "OK", status "FAILED", no status. *)
Example status_scenario :
  let calls := [Scenario.call_a; Scenario.call_b; Scenario.call_nostatus] in
  map isError calls = [false; true; false]
  /\ map isSuccess calls = [true; false; false]
  /\ filteredCalls calls (withToggles true false defaultTerminalFilters)
     = [Scenario.call_b]
  /\ filteredCalls calls (withToggles false true defaultTerminalFilters)
     = [Scenario.call_a]
  /\ filteredCalls calls (withToggles true true defaultTerminalFilters) = []
  /\ filteredCalls calls defaultTerminalFilters = calls.
Proof. vm_compute. repeat split; reflexivity. Qed.

(** C8: a ToolCall is an error exactly when its lower-cased status is
    non-empty and neither "ok" nor "success", a success exactly when it is
    "ok" or "success"; a ToolCall without status is neither and is left out
    of the filtered list whenever "only errors" or "only success" is active;
    with both toggles active the filtered list is the intersection of the
    two restrictions (applying one after the other), which is empty. *)
Theorem status_filter_classification :
  forall (call : ToolCall.t) (filters : TerminalFilters) (calls : list ToolCall.t),
    let s := toLowerCase (nullish (ToolCall.status call) "") in
    let errorsOnly := withToggles true false filters in
    let successOnly := withToggles false true filters in
    let both := withToggles true true filters in
    (isError call = true <-> s <> "" /\ s <> "ok" /\ s <> "success")
    /\ (isSuccess call = true <-> s = "ok" \/ s = "success")
    /\ (ToolCall.status call = Undefined \/ ToolCall.status call = Null ->
        isError call = false
        /\ isSuccess call = false
        /\ (onlyErrors filters = true \/ onlySuccess filters = true ->
            ~ In call (filteredCalls calls filters)))
    /\ filteredCalls calls both
       = filteredCalls (filteredCalls calls errorsOnly) successOnly
    /\ (In call (filteredCalls calls both)
        <-> In call (filteredCalls calls errorsOnly)
            /\ In call (filteredCalls calls successOnly))
    /\ filteredCalls calls both = [].
Proof.
  intros call filters calls. cbv zeta.
  split; [apply isError_iff |]. split; [apply isSuccess_iff |].
  split; [| split; [| split]].
  - intro Habsent.
    assert (Hs : normalizedStatus call = "").
    { unfold normalizedStatus. destruct Habsent as [-> | ->]; reflexivity. }
    assert (He : isError call = false) by (unfold isError; now rewrite Hs).
    assert (Hsu : isSuccess call = false) by (unfold isSuccess; now rewrite Hs).
    repeat split; auto.
    intros Htoggle Hin. unfold filteredCalls in Hin.
    apply filter_In in Hin. destruct Hin as [_ Hkeep].
    destruct Htoggle as [Ht | Ht].
    + apply (keepCall_only_errors _ _ Ht) in Hkeep. congruence.
    + apply (keepCall_only_success _ _ Ht) in Hkeep. congruence.
  - unfold filteredCalls. rewrite filter_twice.
    apply filter_ext. intro c. apply keepCall_both_toggles.
  - unfold filteredCalls. rewrite !filter_In, keepCall_both_toggles, andb_true_iff.
    tauto.
  - unfold filteredCalls.
    assert (Hnone : forall c, keepCall (withToggles true true filters) c = false).
    { intro c. destruct (keepCall _ c) eqn:K; [| reflexivity].
      pose proof (keepCall_only_errors (withToggles true true filters) c eq_refl K) as He.
      pose proof (keepCall_only_success (withToggles true true filters) c eq_refl K) as Hs.
      pose proof (not_error_and_success c) as Hno.
      rewrite He, Hs in Hno. discriminate. }
    induction calls as [| c l IH]; simpl; [reflexivity |].
    now rewrite Hnone.
Qed.

(** ** Graph projector *)

Section MapFacts.
Context {V : Type}.
Implicit Types (m : @Map V) (k : string) (v : V).

Lemma Map_has_set k v m k' :
  Map_has (Map_set k v m) k' = (k =? k') || Map_has m k'.
Proof.
  induction m as [| [k0 v0] m IH]; simpl.
  - now rewrite orb_false_r.
  - destruct (k0 =? k) eqn:E; simpl.
    + apply String.eqb_eq in E. subst k0. unfold Map_has. simpl.
      destruct (k =? k'); reflexivity.
    + rewrite IH. unfold Map_has. simpl.
      destruct (k0 =? k'), (k =? k'); reflexivity.
Qed.

Lemma Map_has_fold (entries : list (string * V)) m k :
  Map_has (fold_left (fun acc e => Map_set (fst e) (snd e) acc) entries m) k
  = Map_has m k || existsb (fun e => fst e =? k) entries.
Proof.
  revert m. induction entries as [| e entries IH]; intro m; simpl.
  - now rewrite orb_false_r.
  - rewrite IH, Map_has_set.
    destruct (fst e =? k), (Map_has m k); reflexivity.
Qed.

Lemma Map_has_new (entries : list (string * V)) k :
  Map_has (Map_new entries) k = existsb (fun e => fst e =? k) entries.
Proof. unfold Map_new. now rewrite Map_has_fold. Qed.

Lemma In_Map_set k v m (p : string * V) :
  In p (Map_set k v m) -> p = (k, v) \/ In p m.
Proof.
  induction m as [| [k0 v0] m IH]; simpl.
  - intros [<- | []]. now left.
  - destruct (k0 =? k); simpl.
    + intros [<- | H]; [now left | right; now right].
    + intros [<- | H]; [right; now left |].
      destruct (IH H) as [-> | H']; [now left | right; now right].
Qed.

Lemma In_Map_fold (entries : list (string * V)) m (p : string * V) :
  In p (fold_left (fun acc e => Map_set (fst e) (snd e) acc) entries m) ->
  In p m \/ In p entries.
Proof.
  revert m. induction entries as [| e entries IH]; intro m; simpl.
  - now left.
  - intro H. destruct (IH _ H) as [H' | H']; [| right; now right].
    destruct (In_Map_set _ _ _ _ H') as [-> | H'']; [| now left].
    right. left. now destruct e.
Qed.

Lemma In_Map_new (entries : list (string * V)) (p : string * V) :
  In p (Map_new entries) -> In p entries.
Proof.
  intro H. destruct (In_Map_fold entries [] p H) as [[] | H']. exact H'.
Qed.
End MapFacts.

(** A map keyed by the ids of a list of entities has exactly those ids. *)
Lemma Map_has_ids {A} (f : A -> string) (l : list A) (k : string) :
  Map_has (Map_new (map (fun x => (f x, x)) l)) k = true <-> In k (map f l).
Proof.
  rewrite Map_has_new, existsb_exists. split.
  - intros [[k0 x] [Hin Hk]]. simpl in Hk. apply String.eqb_eq in Hk. subst k0.
    apply in_map_iff in Hin. destruct Hin as [y [Hy Hin]]. inversion Hy; subst.
    now apply in_map.
  - intro Hin. apply in_map_iff in Hin. destruct Hin as [x [<- Hin]].
    exists (f x, x). split; [| apply String.eqb_refl].
    apply in_map_iff. now exists x.
Qed.

(** The values of such a map are entities of the list. *)
Lemma Map_values_ids {A} (f : A -> string) (l : list A) (x : A) :
  In x (Map_values (Map_new (map (fun x => (f x, x)) l))) -> In x l.
Proof.
  unfold Map_values. intro H. apply in_map_iff in H.
  destruct H as [[k y] [Hy Hin]]. simpl in Hy. subst y.
  apply In_Map_new in Hin. apply in_map_iff in Hin.
  destruct Hin as [z [Hz Hin]]. now inversion Hz; subst.
Qed.

Lemma prefix_cases (snap : Snapshot.t) (id : string) :
  let isAgent := In id (map Agent.id (Snapshot.agents snap)) in
  let isVuln := In id (map Vulnerability.id (Snapshot.vulnerabilities snap)) in
  let isAsset := In id (map Asset.id (Snapshot.assets snap)) in
  (isAgent -> prefix snap id = "agent:" ++ id)
  /\ (~ isAgent -> isVuln -> prefix snap id = "vuln:" ++ id)
  /\ (~ isAgent -> ~ isVuln -> isAsset -> prefix snap id = "asset:" ++ id)
  /\ (~ isAgent -> ~ isVuln -> ~ isAsset -> prefix snap id = id).
Proof.
  cbv zeta. unfold prefix, agents, vulns, assets.
  pose proof (Map_has_ids Agent.id (Snapshot.agents snap) id) as Ha.
  pose proof (Map_has_ids Vulnerability.id (Snapshot.vulnerabilities snap) id) as Hv.
  pose proof (Map_has_ids Asset.id (Snapshot.assets snap) id) as Hs.
  destruct (Map_has (Map_new (map (fun a => (Agent.id a, a)) _)) id);
    destruct (Map_has (Map_new (map (fun v => (Vulnerability.id v, v)) _)) id);
    destruct (Map_has (Map_new (map (fun a => (Asset.id a, a)) _)) id);
    repeat split; intros; try reflexivity;
    repeat match goal with
           | H : _ <-> _ |- _ => destruct H
           end;
    try (exfalso; auto; fail);
    try (exfalso; match goal with
                  | H : ?P -> false = true |- _ =>
                      assert (false = true) by (apply H; assumption); discriminate
                  end).
Qed.

Lemma prefix_empty_iff (snap : Snapshot.t) (id : string) :
  prefix snap id = ""
  <-> id = ""
      /\ ~ In id (map Agent.id (Snapshot.agents snap))
      /\ ~ In id (map Vulnerability.id (Snapshot.vulnerabilities snap))
      /\ ~ In id (map Asset.id (Snapshot.assets snap)).
Proof.
  pose proof (prefix_cases snap id) as [Ha [Hv [Hs Hn]]].
  destruct (in_dec string_dec id (map Agent.id (Snapshot.agents snap))) as [ia | na].
  { rewrite (Ha ia). split; [discriminate | tauto]. }
  destruct (in_dec string_dec id
              (map Vulnerability.id (Snapshot.vulnerabilities snap))) as [iv | nv].
  { rewrite (Hv na iv). split; [discriminate | tauto]. }
  destruct (in_dec string_dec id (map Asset.id (Snapshot.assets snap))) as [ias | nas].
  { rewrite (Hs na nv ias). split; [discriminate | tauto]. }
  rewrite (Hn na nv nas). tauto.
Qed.

(** C4: the edge a1 -> ghost, whose target names no agent, vulnerability or
    asset of the snapshot, is not dropped: [prefix] hands the raw id back, the
    filter on the rewritten endpoints lets it pass, and the edge is in the
    element list handed to Cytoscape with the target "ghost", which is the id
    of no node. *)
Theorem dangling_edge_in_element_list :
  Snapshot.edges Scenario.snapshot_a = [Scenario.edge_dangling]
  /\ Map_has (agents Scenario.snapshot_a) "ghost" = false
  /\ Map_has (vulns Scenario.snapshot_a) "ghost" = false
  /\ Map_has (assets Scenario.snapshot_a) "ghost" = false
  /\ prefix Scenario.snapshot_a "ghost" = "ghost"
  /\ edges Scenario.snapshot_a
     = [ {| edge_id := "e1"; edge_source := "agent:a1";
            edge_target := "ghost"; edge_label := "touched" |} ]
  /\ elements (Some Scenario.snapshot_a) "all" "all"
     = (map NodeDef (nodes Scenario.snapshot_a "all" "all")
        ++ [ EdgeDef {| edge_id := "e1"; edge_source := "agent:a1";
                        edge_target := "ghost"; edge_label := "touched" |} ])%list
  /\ ~ In "ghost" (map node_id (nodes Scenario.snapshot_a "all" "all")).
Proof.
  vm_compute. repeat split; try reflexivity.
  intros [H | [H | [H | [H | []]]]]; discriminate H.
Qed.

(** X24: in the element list, each endpoint of an edge is rewritten by
    resolving it against the agent, vulnerability and asset ids in that order
    (agent first, then vulnerability, then asset), and an endpoint that
    resolves to none of them is left as the raw id; the edges of the element
    list are the rewritten edges of the snapshot, in order, whose two
    rewritten endpoints are non-empty strings, so the only edges left out are
    those with an empty endpoint that names no entity. *)
Theorem edge_projection_prefixes_endpoints :
  forall (snap : Snapshot.t),
    (forall id : string,
        let isAgent := In id (map Agent.id (Snapshot.agents snap)) in
        let isVuln := In id (map Vulnerability.id (Snapshot.vulnerabilities snap)) in
        let isAsset := In id (map Asset.id (Snapshot.assets snap)) in
        (isAgent -> prefix snap id = "agent:" ++ id)
        /\ (~ isAgent -> isVuln -> prefix snap id = "vuln:" ++ id)
        /\ (~ isAgent -> ~ isVuln -> isAsset -> prefix snap id = "asset:" ++ id)
        /\ (~ isAgent -> ~ isVuln -> ~ isAsset -> prefix snap id = id)
        /\ (prefix snap id = "" <-> id = "" /\ ~ isAgent /\ ~ isVuln /\ ~ isAsset))
    /\ edges snap
       = map (edgeElement snap)
           (filter (fun e => negb (prefix snap (Edge.source e) =? "")
                             && negb (prefix snap (Edge.target e) =? ""))
                   (Snapshot.edges snap))
    /\ (forall e : Edge.t,
           In e (Snapshot.edges snap) ->
           Edge.source e <> "" -> Edge.target e <> "" ->
           In {| edge_id := Edge.id e;
                 edge_source := prefix snap (Edge.source e);
                 edge_target := prefix snap (Edge.target e);
                 edge_label := nullish (Edge.label e) (Edge.relation e) |}
              (edges snap)).
Proof.
  intro snap. split; [| split].
  - intro id. cbv zeta.
    pose proof (prefix_cases snap id) as [Ha [Hv [Hs Hn]]].
    split; [exact Ha |]. split; [exact Hv |]. split; [exact Hs |].
    split; [exact Hn | apply prefix_empty_iff].
  - unfold edges.
    induction (Snapshot.edges snap) as [| e l IH]; simpl; [reflexivity |].
    unfold edgeKept at 1. simpl.
    destruct (negb (prefix snap (Edge.source e) =? "")
              && negb (prefix snap (Edge.target e) =? "")); simpl; now rewrite IH.
  - intros e Hin Hsrc Htgt. unfold edges.
    apply filter_In. split.
    + apply in_map_iff. exists e. split; [reflexivity | assumption].
    + unfold edgeKept. simpl.
      rewrite andb_true_iff, !negb_true_iff, !String.eqb_neq.
      split; intro H; apply prefix_empty_iff in H; tauto.
Qed.

Lemma lower_ascii_idempotent (c : ascii) : lower_ascii (lower_ascii c) = lower_ascii c.
Proof. destruct c as [[] [] [] [] [] [] [] []]; reflexivity. Qed.

Lemma toLowerCase_idempotent (s : string) : toLowerCase (toLowerCase s) = toLowerCase s.
Proof.
  induction s as [| c s IH]; simpl; [reflexivity |].
  now rewrite lower_ascii_idempotent, IH.
Qed.

(** What the graph view does with the severity filter: a vulnerability node
    is faded exactly when the filter is not "all" and differs from the
    lower-cased severity, where a missing severity counts as "low". *)
Lemma vulnNode_faded (severityFilter : string) (v : Vulnerability.t) :
  let shown := nullish (toLowerCase_opt (Vulnerability.severity v)) "low" in
  node_classes (vulnNode severityFilter v)
  = if negb (severityFilter =? "all") && negb (shown =? severityFilter)
    then "vuln faded" else "vuln".
Proof.
  cbv zeta. unfold vulnNode, shouldFadeVuln. simpl.
  destruct (severityFilter =? "all"); simpl; [reflexivity |].
  assert (Hidem :
            toLowerCase (nullish (toLowerCase_opt (Vulnerability.severity v)) "low")
            = nullish (toLowerCase_opt (Vulnerability.severity v)) "low").
  { destruct (Vulnerability.severity v); simpl; try reflexivity.
    apply toLowerCase_idempotent. }
  rewrite Hidem.
  destruct (_ =? severityFilter); reflexivity.
Qed.

(** C7: the graph view hands [shouldFadeVuln] the severity it has already
    defaulted to "low" for the colour of the node, so the "unknown" default of
    the filter is never reached.  A vulnerability without severity passes the
    filter "low" and is faded under the filter "unknown", while
    [shouldFadeVuln] applied to the missing severity itself says the
    opposite. *)
Theorem unrated_vulnerability_filtered_as_low :
  Vulnerability.severity Scenario.vuln_unrated = Null
  /\ node_classes (vulnNode "low" Scenario.vuln_unrated) = "vuln"
  /\ node_classes (vulnNode "unknown" Scenario.vuln_unrated) = "vuln faded"
  /\ shouldFadeVuln "low" (Vulnerability.severity Scenario.vuln_unrated) = true
  /\ shouldFadeVuln "unknown" (Vulnerability.severity Scenario.vuln_unrated) = false
  /\ map (fun n => (node_id n, node_classes n))
         (nodes Scenario.snapshot_a "all" "low")
     = [ ("agent:a1", "agent"); ("asset:s1", "asset");
         ("vuln:v1", "vuln"); ("vuln:v2", "vuln") ].
Proof. vm_compute. repeat split; reflexivity. Qed.

(** ** Highlight derived from a terminal row *)

Lemma cyNodes_elements (ns : list NodeElement) (es : list EdgeElement) :
  cyNodes (map NodeDef ns ++ map EdgeDef es) = map cyNodeOf ns.
Proof.
  induction ns as [| n ns IH]; simpl.
  - induction es as [| e es IHe]; simpl; [reflexivity | exact IHe].
  - now rewrite IH.
Qed.

Lemma removeClass_not_highlighted (n : CyNode) :
  isHighlighted (removeClass "highlighted" n) = false.
Proof.
  unfold isHighlighted, removeClass. simpl.
  induction (cy_classes n) as [| c l IH]; simpl; [reflexivity |].
  destruct (c =? "highlighted") eqn:E; simpl; [exact IH |].
  now rewrite E.
Qed.

Lemma includes_app (c : ascii) (p s : string) :
  includes c (p ++ s) = includes c p || includes c s.
Proof.
  induction p as [| c' p IH]; simpl; [reflexivity |].
  now rewrite IH, orb_assoc.
Qed.

Lemma selectById_plain (spliced : string -> list CyNode -> list CyNode)
      (id : string) (cy : list CyNode) :
  includes doubleQuote id = false ->
  selectById spliced id cy = filter (fun n => cy_id n =? id) cy.
Proof. intro H. unfold selectById. now rewrite H. Qed.

Lemma selectById_nil (spliced : string -> list CyNode -> list CyNode)
      (id : string) (cy : list CyNode) :
  includes doubleQuote id = false ->
  (forall n, In n cy -> cy_id n <> id) -> selectById spliced id cy = [].
Proof.
  intros Hq H. rewrite (selectById_plain spliced id cy Hq).
  induction cy as [| n cy IH]; simpl; [reflexivity |].
  destruct (cy_id n =? id) eqn:E.
  - apply String.eqb_eq in E. exfalso. apply (H n); [now left | exact E].
  - apply IH. intros m Hm. apply H. now right.
Qed.

(** With no node of the requested id, the effect only removes the class. *)
Lemma highlightEffect_no_match (spliced : string -> list CyNode -> list CyNode)
      (id : string) (cy : list CyNode) :
  includes doubleQuote id = false ->
  (forall n, In n cy -> cy_id n <> id) ->
  highlightEffect spliced (Some id) (Some cy)
  = Some (map (removeClass "highlighted") cy).
Proof.
  intros Hq Hnone. unfold highlightEffect.
  destruct (negb (id =? "")); [| reflexivity].
  rewrite selectById_nil; [reflexivity | exact Hq |].
  intros n Hn. apply in_map_iff in Hn. destruct Hn as [m [<- Hm]].
  simpl. now apply Hnone.
Qed.

(** The ids of the rendered nodes: a prefixed id of an entity of the
    snapshot. *)
Lemma node_ids (snap : Snapshot.t) (af sf : string) (n : NodeElement) :
  In n (nodes snap af sf) ->
  (exists a, In a (Snapshot.agents snap) /\ node_id n = "agent:" ++ Agent.id a)
  \/ (exists a, In a (Snapshot.assets snap) /\ node_id n = "asset:" ++ Asset.id a)
  \/ (exists v, In v (Snapshot.vulnerabilities snap)
                /\ node_id n = "vuln:" ++ Vulnerability.id v).
Proof.
  unfold nodes. rewrite !in_app_iff, !in_map_iff.
  intros [[a [<- Ha]] | [[a [<- Ha]] | [v [<- Hv]]]].
  - left. exists a. split; [| reflexivity].
    now apply (Map_values_ids Agent.id).
  - right. left. exists a. split; [| reflexivity].
    now apply (Map_values_ids Asset.id).
  - right. right. exists v. split; [| reflexivity].
    now apply (Map_values_ids Vulnerability.id).
Qed.

Lemma no_asset_no_node (snapshot : option Snapshot.t) (af sf s : string) (n : CyNode) :
  ~ In s (assetIds snapshot) ->
  In n (cyNodes (elements snapshot af sf)) ->
  cy_id n <> "asset:" ++ s.
Proof.
  intros Hno Hin. destruct snapshot as [snap |]; simpl in *; [| contradiction].
  unfold elements_of in Hin. rewrite cyNodes_elements in Hin.
  apply in_map_iff in Hin. destruct Hin as [ne [<- Hne]]. simpl.
  destruct (node_ids snap af sf ne Hne) as [[a [_ ->]] | [[a [Ha ->]] | [v [_ ->]]]].
  - discriminate.
  - intro H. inversion H as [Hid]. apply Hno.
    rewrite <- Hid. now apply in_map.
  - discriminate.
Qed.

(** Scenario: the row of a call whose target "nowhere" is no asset of
    run-a, and the row of a call whose target is the asset s1. *)
Example terminal_select_scenario :
  forall spliced : string -> list CyNode -> list CyNode,
  let st := step Scenario.showing_a (TerminalSelect Scenario.call_nostatus) in
  highlightedNodeId st = Some "asset:nowhere"
  /\ highlightEffect spliced (highlightedNodeId st)
       (Some (cyNodes (elements (snapshot st) (agentFilter st) (severityFilter st))))
     = Some [ {| cy_id := "agent:a1"; cy_classes := ["agent"] |};
              {| cy_id := "asset:s1"; cy_classes := ["asset"] |};
              {| cy_id := "vuln:v1"; cy_classes := ["vuln"] |};
              {| cy_id := "vuln:v2"; cy_classes := ["vuln"] |} ]
  /\ highlightEffect spliced
       (highlightedNodeId (step Scenario.showing_a (TerminalSelect Scenario.call_a)))
       (Some (cyNodes (elements (snapshot st) (agentFilter st) (severityFilter st))))
     = Some [ {| cy_id := "agent:a1"; cy_classes := ["agent"] |};
              {| cy_id := "asset:s1"; cy_classes := ["asset"; "highlighted"] |};
              {| cy_id := "vuln:v1"; cy_classes := ["vuln"] |};
              {| cy_id := "vuln:v2"; cy_classes := ["vuln"] |} ].
Proof. intro spliced. vm_compute. repeat split; reflexivity. Qed.

(** C10: the highlight id is put into the selector text without escaping.
    For the row of a call whose target is x, a double quote, or, a double
    quote, 1, no asset of the snapshot and no node of the graph has the id
    "asset:" + target, yet the effect does not look for a node of that id:
    the first double quote of the target ends the quoted string of the
    selector, the rest of the target is read as selector text, and the nodes
    highlighted are those Cytoscape selects for that text.  When it selects
    every node, every node is highlighted, where the claim has none. *)
Theorem quoted_target_breaks_selector :
  let st := step Scenario.showing_a (TerminalSelect Scenario.call_quoted) in
  let id := "asset:" ++ Scenario.quoted_target in
  let cy := cyNodes (elements (snapshot st) (agentFilter st) (severityFilter st)) in
  highlightedNodeId st = Some id
  /\ (forall n, In n cy -> cy_id n <> id)
  /\ selectorText id
     = "node[id = "
       ++ String doubleQuote
            ("asset:x"
             ++ String doubleQuote
                  (" or " ++ String doubleQuote ("1" ++ String doubleQuote "]")))
  /\ (forall spliced,
         selectById spliced id (map (removeClass "highlighted") cy)
         = spliced (selectorText id) (map (removeClass "highlighted") cy))
  /\ highlightEffect Scenario.every_node (highlightedNodeId st) (Some cy)
     = Some [ {| cy_id := "agent:a1"; cy_classes := ["agent"; "highlighted"] |};
              {| cy_id := "asset:s1"; cy_classes := ["asset"; "highlighted"] |};
              {| cy_id := "vuln:v1"; cy_classes := ["vuln"; "highlighted"] |};
              {| cy_id := "vuln:v2"; cy_classes := ["vuln"; "highlighted"] |} ].
Proof.
  cbv zeta. split; [reflexivity |]. split.
  - intros n Hn. vm_compute in Hn.
    destruct Hn as [<- | [<- | [<- | [<- | []]]]]; discriminate.
  - split; [reflexivity |]. split; [reflexivity |].
    vm_compute. reflexivity.
Qed.

(** X25: selecting a terminal row whose ToolCall has a non-empty target
    without double quote sets the highlight to "asset:" + target whatever the
    snapshot holds; when the Cytoscape instance has no node with that id the
    highlight effect completes, keeps the nodes, and leaves none of them
    highlighted; and the element list has no such node when the snapshot has
    no asset with that id. *)
Theorem terminal_select_highlight_unchecked :
  forall (spliced : string -> list CyNode -> list CyNode)
         (call : ToolCall.t) (s : string) (st : State),
    ToolCall.target call = Val s ->
    s <> "" ->
    includes doubleQuote s = false ->
    let st' := handleTerminalSelect call st in
    highlightedNodeId st' = Some ("asset:" ++ s)
    /\ snapshot st' = snapshot st
    /\ (forall cy : list CyNode,
           (forall n, In n cy -> cy_id n <> "asset:" ++ s) ->
           exists cy',
             highlightEffect spliced (highlightedNodeId st') (Some cy) = Some cy'
             /\ map cy_id cy' = map cy_id cy
             /\ (forall n, In n cy' -> isHighlighted n = false))
    /\ (~ In s (assetIds (snapshot st)) ->
        forall n,
          In n (cyNodes (elements (snapshot st') (agentFilter st') (severityFilter st'))) ->
          cy_id n <> "asset:" ++ s).
Proof.
  intros spliced call s st Htarget Hs Hq. cbv zeta.
  assert (Hsel : handleTerminalSelect call st
                 = setHighlightedNodeId (Some ("asset:" ++ s)) st).
  { unfold handleTerminalSelect. rewrite Htarget. simpl.
    apply String.eqb_neq in Hs. now rewrite Hs. }
  assert (Hq' : includes doubleQuote ("asset:" ++ s) = false).
  { rewrite includes_app, Hq. reflexivity. }
  rewrite Hsel. unfold setHighlightedNodeId.
  cbn [highlightedNodeId snapshot agentFilter severityFilter].
  split; [reflexivity |]. split; [reflexivity |]. split.
  - intros cy Hnone.
    exists (map (removeClass "highlighted") cy).
    split; [now apply highlightEffect_no_match |]. split.
    + rewrite map_map. reflexivity.
    + intros n Hn. apply in_map_iff in Hn. destruct Hn as [m [<- _]].
      apply removeClass_not_highlighted.
  - intros Hno n Hn.
    exact (no_asset_no_node (snapshot st) (agentFilter st) (severityFilter st)
                            s n Hno Hn).
Qed.

Lemma terminal_select_highlight_witness :
  ToolCall.target Scenario.call_nostatus = Val "nowhere"
  /\ "nowhere" <> ""
  /\ includes doubleQuote "nowhere" = false
  /\ highlightedNodeId (handleTerminalSelect Scenario.call_nostatus Scenario.showing_a)
     = Some "asset:nowhere".
Proof.
  split; [reflexivity |]. split; [discriminate |]. split; [reflexivity |].
  apply (terminal_select_highlight_unchecked Scenario.every_node
           Scenario.call_nostatus "nowhere" Scenario.showing_a eq_refl).
  - discriminate.
  - reflexivity.
Defined.

(** * Further properties of the front end *)

(** ** Node ids and raw ids *)

Lemma split_without_separator (c : ascii) (s : string) :
  includes c s = false -> split c s = [s].
Proof.
  induction s as [| c' s IH]; simpl; [reflexivity |].
  intro H. apply orb_false_iff in H. destruct H as [Hc Hs].
  rewrite Hc, (IH Hs). reflexivity.
Qed.

Lemma split_at_separator (c : ascii) (a b : string) :
  includes c a = false -> split c (a ++ String c b) = a :: split c b.
Proof.
  induction a as [| c' a IH]; simpl.
  - intros _. now rewrite Ascii.eqb_refl.
  - intro H. apply orb_false_iff in H. destruct H as [Hc Ha].
    rewrite Hc, (IH Ha). reflexivity.
Qed.

Lemma split_head_without_separator (c : ascii) (s : string) :
  includes c (hd "" (split c s)) = false.
Proof.
  induction s as [| c' s IH]; simpl; [reflexivity |].
  destruct (Ascii.eqb c' c) eqn:E; simpl; [reflexivity |].
  destruct (split c s) as [| h t]; simpl in *.
  - now rewrite E.
  - now rewrite E, IH.
Qed.

Lemma split_not_nil (c : ascii) (s : string) : split c s <> [].
Proof.
  destruct s as [| c' s]; simpl; [discriminate |].
  destruct (Ascii.eqb c' c); [discriminate |].
  destruct (split c s); discriminate.
Qed.

(** The raw id read back from a node id: the text between the first and the
    second colon. *)
Lemma rawIdOf_prefixed (kind raw : string) :
  includes ":" kind = false ->
  rawIdOf (kind ++ ":" ++ raw) = Some (hd "" (split ":" raw)).
Proof.
  intro H. unfold rawIdOf, split_limit, second.
  change (kind ++ ":" ++ raw) with (kind ++ String ":" raw).
  rewrite (split_at_separator _ _ _ H).
  pose proof (split_not_nil ":" raw) as Hne.
  destruct (split ":" raw) as [| h t]; [congruence | reflexivity].
Qed.

Lemma rawIdOf_plain (kind raw : string) :
  includes ":" kind = false -> includes ":" raw = false ->
  rawIdOf (kind ++ ":" ++ raw) = Some raw.
Proof.
  intros Hk Hr. rewrite (rawIdOf_prefixed _ _ Hk).
  now rewrite (split_without_separator _ _ Hr).
Qed.

(** X1: a tap on the node of an asset sets the highlight to the node id and
    the asset-target filter to the asset id cut at its first colon, and
    leaves the agent filter and the terminal filters alone; the filter is the
    asset id itself exactly when the id holds no colon. *)
Theorem asset_tap_sets_truncated_filter :
  forall (a : Asset.t) (st : State),
    let st' := handleNodeSelect (tap (OnNode (assetNode a))) st in
    highlightedNodeId st' = Some ("asset:" ++ Asset.id a)
    /\ assetTerminalFilter st' = Some (hd "" (split ":" (Asset.id a)))
    /\ agentFilter st' = agentFilter st
    /\ terminalFilters st' = terminalFilters st
    /\ (assetTerminalFilter st' = Some (Asset.id a)
        <-> includes ":" (Asset.id a) = false).
Proof.
  intros a st. cbv zeta.
  assert (Hraw : rawIdOf ("asset:" ++ Asset.id a)
                 = Some (hd "" (split ":" (Asset.id a)))).
  { apply (rawIdOf_prefixed "asset"). reflexivity. }
  unfold handleNodeSelect, tap, assetNode.
  cbn [id entityType node_id node_entityType]. rewrite Hraw.
  cbn [assetTerminalFilter setAssetTerminalFilter highlightedNodeId
       setHighlightedNodeId setSelectedNode agentFilter terminalFilters].
  repeat split; try reflexivity.
  - intro H. inversion H as [Hhd].
    rewrite <- Hhd at 1. rewrite Hhd.
    rewrite <- Hhd. apply split_head_without_separator.
  - intro H. now rewrite (split_without_separator _ _ H).
Qed.

(** X2: a tap on the node of the vulnerability with a colon-free id [raw]
    looks up the first vulnerability of the snapshot with that id.  When it
    is found, a non-empty [asset_id] becomes the asset-target filter and a
    non-empty [agent_id] becomes the agent of the terminal filters, each left
    alone otherwise; when it is not found (or there is no snapshot) no filter
    changes.  The agent filter of the graph is never changed. *)
Theorem vulnerability_tap_derives_filters :
  forall (raw : string) (st : State),
    includes ":" raw = false ->
    let st' := handleNodeSelect
                 (Some {| id := "vuln:" ++ raw; entityType := vuln |}) st in
    highlightedNodeId st' = Some ("vuln:" ++ raw)
    /\ agentFilter st' = agentFilter st
    /\ match findVuln (snapshot st) (Some raw) with
       | Some v =>
           assetTerminalFilter st'
           = (if truthy_str (Vulnerability.asset_id v)
              then Some (nullish (Vulnerability.asset_id v) "")
              else assetTerminalFilter st)
           /\ terminalFilters st'
              = (if truthy_str (Vulnerability.agent_id v)
                 then withAgentId (nullish (Vulnerability.agent_id v) "all")
                                  (terminalFilters st)
                 else terminalFilters st)
       | None =>
           assetTerminalFilter st' = assetTerminalFilter st
           /\ terminalFilters st' = terminalFilters st
       end.
Proof.
  intros raw st Hraw. cbv zeta.
  assert (Hr : rawIdOf ("vuln:" ++ raw) = Some raw)
    by apply (rawIdOf_plain "vuln" raw eq_refl Hraw).
  unfold handleNodeSelect. cbn [id entityType]. rewrite Hr.
  cbn [snapshot setHighlightedNodeId setSelectedNode].
  destruct (findVuln (snapshot st) (Some raw)) as [v |].
  - destruct (truthy_str (Vulnerability.asset_id v));
      destruct (truthy_str (Vulnerability.agent_id v));
      simpl; repeat split; reflexivity.
  - simpl. repeat split; reflexivity.
Qed.

Lemma vulnerability_tap_witness :
  includes ":" "v1" = false
  /\ (let st' := handleNodeSelect
                   (Some {| id := "vuln:v1"; entityType := vuln |})
                   Scenario.showing_a in
      assetTerminalFilter st' = Some "s1"
      /\ agentId (terminalFilters st') = "a1"
      /\ agentFilter st' = "all").
Proof.
  split; [reflexivity |].
  pose proof (vulnerability_tap_derives_filters "v1" Scenario.showing_a eq_refl)
    as [_ [Hgraph [Ha Ht]]].
  split; [exact Ha |]. split; [exact (f_equal agentId Ht) | exact Hgraph].
Defined.

(** X3: a tap on the node of an agent whose id holds no colon and is not
    "all" makes that id the agent filter of the graph and of the terminal and
    clears the asset-target filter; in the graph drawn with the new filter
    the agents with that id are shown plainly and every other agent is
    faded. *)
Theorem agent_tap_fades_other_agents :
  forall (a : Agent.t) (af : string) (st : State),
    includes ":" (Agent.id a) = false ->
    Agent.id a <> "all" ->
    let st' := handleNodeSelect (tap (OnNode (agentNode af a))) st in
    agentFilter st' = Agent.id a
    /\ agentId (terminalFilters st') = Agent.id a
    /\ assetTerminalFilter st' = None
    /\ highlightedNodeId st' = Some (node_id (agentNode af a))
    /\ forall b : Agent.t,
         node_classes (agentNode (agentFilter st') b)
         = if Agent.id b =? Agent.id a then "agent" else "agent faded".
Proof.
  intros a af st Hcolon Hall. cbv zeta.
  assert (Hr : rawIdOf ("agent:" ++ Agent.id a) = Some (Agent.id a))
    by apply (rawIdOf_plain "agent" (Agent.id a) eq_refl Hcolon).
  unfold handleNodeSelect, tap, agentNode.
  cbn [id entityType node_id node_entityType]. rewrite Hr.
  simpl. repeat split; try reflexivity.
  intro b. unfold shouldFadeAgent.
  apply String.eqb_neq in Hall. rewrite Hall. simpl.
  destruct (Agent.id b =? Agent.id a); reflexivity.
Qed.

Lemma agent_tap_witness :
  includes ":" (Agent.id Scenario.agent_a1) = false
  /\ Agent.id Scenario.agent_a1 <> "all"
  /\ agentFilter (handleNodeSelect (tap (OnNode (agentNode "all" Scenario.agent_a1)))
                                   Scenario.showing_a) = "a1".
Proof.
  split; [reflexivity |]. split; [discriminate |].
  apply (agent_tap_fades_other_agents Scenario.agent_a1 "all" Scenario.showing_a
           eq_refl).
  discriminate.
Defined.

(** X4: selecting a terminal row changes nothing but the highlight; a call
    without (non-empty) target but with a non-empty agent id highlights
    "agent:" + agent id, and a call with neither leaves the state as it
    is. *)
Theorem terminal_select_only_moves_highlight :
  forall (call : ToolCall.t) (st : State),
    let st' := handleTerminalSelect call st in
    st' = setHighlightedNodeId (highlightedNodeId st') st
    /\ (truthy_str (ToolCall.target call) = false ->
        forall s, ToolCall.agent_id call = Val s -> s <> "" ->
                  highlightedNodeId st' = Some ("agent:" ++ s))
    /\ (truthy_str (ToolCall.target call) = false ->
        truthy_str (ToolCall.agent_id call) = false ->
        st' = st).
Proof.
  intros call st. cbv zeta. unfold handleTerminalSelect.
  destruct (truthy_str (ToolCall.target call)) eqn:Ht.
  - split; [reflexivity |]. split; discriminate.
  - destruct (truthy_str (ToolCall.agent_id call)) eqn:Ha.
    + split; [reflexivity |]. split; [| discriminate].
      intros _ s Hs _. rewrite Hs. reflexivity.
    + split; [now destruct st |]. split; [| reflexivity].
      intros _ s Hs Hne. rewrite Hs in Ha. simpl in Ha.
      apply String.eqb_neq in Hne. rewrite Hne in Ha. discriminate.
Qed.

(** ** Maps keyed by entity id *)

Section KeyedMaps.
Context {V : Type}.
Implicit Types (m : @Map V) (k : string) (v : V).

Lemma Map_has_keys m k : Map_has m k = true <-> In k (map fst m).
Proof.
  unfold Map_has. rewrite existsb_exists, in_map_iff.
  split; intros [e [H1 H2]]; exists e.
  - apply String.eqb_eq in H2. now split.
  - split; [exact H2 | now apply String.eqb_eq].
Qed.

Lemma Map_keys_set k v m :
  map fst (Map_set k v m)
  = if Map_has m k then map fst m else (map fst m ++ [k])%list.
Proof.
  induction m as [| [k0 v0] m IH]; simpl; [reflexivity |].
  unfold Map_has in *. simpl.
  destruct (k0 =? k) eqn:E; simpl.
  - apply String.eqb_eq in E. now subst.
  - rewrite IH. now destruct (existsb _ m).
Qed.

Lemma Map_set_fresh k v m :
  Map_has m k = false -> Map_set k v m = (m ++ [(k, v)])%list.
Proof.
  induction m as [| [k0 v0] m IH]; simpl; [reflexivity |].
  unfold Map_has in *. simpl. intro H. apply orb_false_iff in H.
  destruct H as [H0 H]. rewrite H0, (IH H). reflexivity.
Qed.

Lemma Map_keys_NoDup (entries : list (string * V)) m :
  NoDup (map fst m) ->
  NoDup (map fst (fold_left (fun acc e => Map_set (fst e) (snd e) acc) entries m)).
Proof.
  revert m. induction entries as [| e entries IH]; intros m Hm; simpl; [exact Hm |].
  apply IH. rewrite Map_keys_set.
  destruct (Map_has m (fst e)) eqn:E; [exact Hm |].
  apply NoDup_app; [exact Hm | repeat constructor; intros [] |].
  intros a Ha [<- | []].
  apply Map_has_keys in Ha. congruence.
Qed.

Lemma Map_new_keys_NoDup (entries : list (string * V)) :
  NoDup (map fst (Map_new entries)).
Proof. apply Map_keys_NoDup. constructor. Qed.

Lemma Map_fold_distinct (entries : list (string * V)) m :
  NoDup (map fst m ++ map fst entries) ->
  fold_left (fun acc e => Map_set (fst e) (snd e) acc) entries m
  = (m ++ entries)%list.
Proof.
  revert m. induction entries as [| [k v] entries IH]; intros m H; simpl.
  - now rewrite app_nil_r.
  - simpl in H. pose proof (NoDup_remove_2 _ _ _ H) as Hk.
    assert (Hfresh : Map_has m k = false).
    { destruct (Map_has m k) eqn:E; [| reflexivity].
      apply Map_has_keys in E. exfalso. apply Hk. apply in_or_app. now left. }
    rewrite (Map_set_fresh _ _ _ Hfresh), IH.
    + now rewrite <- app_assoc.
    + rewrite map_app. simpl. now rewrite <- app_assoc.
Qed.

(** With distinct keys [new Map(entries)] holds the entries as given. *)
Lemma Map_new_distinct (entries : list (string * V)) :
  NoDup (map fst entries) -> Map_new entries = entries.
Proof. intro H. unfold Map_new. now rewrite Map_fold_distinct. Qed.
End KeyedMaps.

(** The ids of the values of a map keyed by id are its keys. *)
Lemma Map_values_keys {A} (f : A -> string) (l : list A) :
  map f (Map_values (Map_new (map (fun x => (f x, x)) l)))
  = map fst (Map_new (map (fun x => (f x, x)) l)).
Proof.
  unfold Map_values. rewrite map_map. apply map_ext_in.
  intros [k v] Hin. simpl. apply In_Map_new in Hin.
  apply in_map_iff in Hin. destruct Hin as [x [Hx _]]. now inversion Hx.
Qed.

Lemma NoDup_prefixed (p : string) (l : list string) :
  NoDup l -> NoDup (map (fun k => p ++ k) l).
Proof.
  assert (Hinj : forall a b, p ++ a = p ++ b -> a = b).
  { induction p as [| c p IH]; simpl; intros a b H; [exact H |].
    inversion H. now apply IH. }
  induction 1 as [| x l Hx Hl IH]; simpl; constructor; [| exact IH].
  intro Hin. apply in_map_iff in Hin. destruct Hin as [y [Hy Hin]].
  apply Hinj in Hy. now subst.
Qed.

(** The ids of the nodes built from one map of entities. *)
Lemma projected_ids {A} (f : A -> string) (mk : A -> NodeElement) (p : string)
      (l : list A) :
  (forall a, node_id (mk a) = p ++ f a) ->
  map node_id (map mk (Map_values (Map_new (map (fun x => (f x, x)) l))))
  = map (fun k => p ++ k) (map fst (Map_new (map (fun x => (f x, x)) l))).
Proof.
  intro Hmk. rewrite <- Map_values_keys, !map_map.
  apply map_ext. intro a. apply Hmk.
Qed.

Lemma node_ids_by_kind (snap : Snapshot.t) (af sf : string) :
  map node_id (nodes snap af sf)
  = (map (fun k => ("agent:" ++ k)%string) (map fst (agents snap))
     ++ map (fun k => ("asset:" ++ k)%string) (map fst (assets snap))
     ++ map (fun k => ("vuln:" ++ k)%string) (map fst (vulns snap)))%list.
Proof.
  unfold nodes, agents, assets, vulns. rewrite !map_app.
  rewrite (projected_ids Agent.id (agentNode af) "agent:") by reflexivity.
  rewrite (projected_ids Asset.id assetNode "asset:") by reflexivity.
  rewrite (projected_ids Vulnerability.id (vulnNode sf) "vuln:") by reflexivity.
  reflexivity.
Qed.

Lemma prefix_resolved (snap : Snapshot.t) (af sf id : string) :
  In id (knownIds snap) ->
  In (prefix snap id) (map node_id (nodes snap af sf)) /\ prefix snap id <> "".
Proof.
  intro Hknown. rewrite node_ids_by_kind. unfold prefix.
  destruct (Map_has (agents snap) id) eqn:Ea.
  { split; [| discriminate]. apply in_or_app. left.
    apply (in_map (fun k => "agent:" ++ k)). now apply Map_has_keys. }
  destruct (Map_has (vulns snap) id) eqn:Ev.
  { split; [| discriminate]. apply in_or_app. right. apply in_or_app. right.
    apply (in_map (fun k => "vuln:" ++ k)). now apply Map_has_keys. }
  destruct (Map_has (assets snap) id) eqn:Es.
  { split; [| discriminate]. apply in_or_app. right. apply in_or_app. left.
    apply (in_map (fun k => "asset:" ++ k)). now apply Map_has_keys. }
  exfalso. unfold knownIds in Hknown. rewrite !in_app_iff in Hknown.
  unfold agents, vulns, assets in *.
  destruct Hknown as [H | [H | H]]; apply Map_has_ids in H; congruence.
Qed.

(** X5: every edge of the snapshot whose two endpoints are ids of an agent,
    a vulnerability or an asset of the snapshot is rendered, and its two
    rewritten endpoints are ids of rendered nodes, whatever the filters. *)
Theorem resolved_edges_join_rendered_nodes :
  forall (snap : Snapshot.t) (af sf : string) (e : Edge.t),
    In e (Snapshot.edges snap) ->
    In (Edge.source e) (knownIds snap) ->
    In (Edge.target e) (knownIds snap) ->
    In (edgeElement snap e) (edges snap)
    /\ In (edge_source (edgeElement snap e)) (map node_id (nodes snap af sf))
    /\ In (edge_target (edgeElement snap e)) (map node_id (nodes snap af sf)).
Proof.
  intros snap af sf e He Hs Ht.
  destruct (prefix_resolved snap af sf _ Hs) as [Hs1 Hs2].
  destruct (prefix_resolved snap af sf _ Ht) as [Ht1 Ht2].
  split; [| split; assumption].
  unfold edges. apply filter_In. split; [now apply in_map |].
  unfold edgeKept. simpl.
  apply String.eqb_neq in Hs2, Ht2. now rewrite Hs2, Ht2.
Qed.

Lemma resolved_edges_witness :
  In {| Edge.id := "e2"; Edge.source := "a1"; Edge.target := "s1";
        Edge.relation := "touched"; Edge.label := Null |}
     (Snapshot.edges Scenario.snapshot_edges)
  /\ In "a1" (knownIds Scenario.snapshot_edges)
  /\ In "s1" (knownIds Scenario.snapshot_edges)
  /\ In "asset:s1" (map node_id (nodes Scenario.snapshot_edges "all" "all")).
Proof.
  split; [now left |]. split; [now left |].
  split; [right; right; right; now left |].
  apply (resolved_edges_join_rendered_nodes Scenario.snapshot_edges "all" "all"
           {| Edge.id := "e2"; Edge.source := "a1"; Edge.target := "s1";
              Edge.relation := "touched"; Edge.label := Null |}).
  - now left.
  - now left.
  - right; right; right; now left.
Defined.

(** X6: the ids of the rendered nodes are pairwise distinct for every
    snapshot, also one that lists an id twice. *)
Theorem rendered_node_ids_distinct :
  forall (snap : Snapshot.t) (af sf : string),
    NoDup (map node_id (nodes snap af sf)).
Proof.
  intros snap af sf. rewrite node_ids_by_kind.
  apply NoDup_app; [| apply NoDup_app |].
  - apply NoDup_prefixed, Map_new_keys_NoDup.
  - apply NoDup_prefixed, Map_new_keys_NoDup.
  - apply NoDup_prefixed, Map_new_keys_NoDup.
  - intros x Hx Hy. apply in_map_iff in Hx, Hy.
    destruct Hx as [a [<- _]]. destruct Hy as [b [Hb _]]. discriminate.
  - intros x Hx Hy. apply in_map_iff in Hx. destruct Hx as [a [<- _]].
    apply in_app_or in Hy. destruct Hy as [Hy | Hy];
      apply in_map_iff in Hy; destruct Hy as [b [Hb _]]; discriminate.
Qed.

Lemma nodes_when_ids_distinct (snap : Snapshot.t) (af sf : string) :
  NoDup (map Agent.id (Snapshot.agents snap)) ->
  NoDup (map Asset.id (Snapshot.assets snap)) ->
  NoDup (map Vulnerability.id (Snapshot.vulnerabilities snap)) ->
  nodes snap af sf
  = (map (agentNode af) (Snapshot.agents snap)
     ++ map assetNode (Snapshot.assets snap)
     ++ map (vulnNode sf) (Snapshot.vulnerabilities snap))%list.
Proof.
  intros Ha Hs Hv.
  unfold nodes, agents, assets, vulns, Map_values.
  rewrite !Map_new_distinct by (rewrite map_map; simpl; assumption).
  rewrite !map_map. reflexivity.
Qed.

(** X7: when the ids within each collection of the snapshot are distinct,
    the graph has exactly one node per agent, asset and vulnerability, in the
    order of the snapshot (agents, then assets, then vulnerabilities). *)
Theorem one_node_per_entity :
  forall (snap : Snapshot.t) (af sf : string),
    NoDup (map Agent.id (Snapshot.agents snap)) ->
    NoDup (map Asset.id (Snapshot.assets snap)) ->
    NoDup (map Vulnerability.id (Snapshot.vulnerabilities snap)) ->
    nodes snap af sf
    = (map (agentNode af) (Snapshot.agents snap)
       ++ map assetNode (Snapshot.assets snap)
       ++ map (vulnNode sf) (Snapshot.vulnerabilities snap))%list.
Proof. intros snap af sf. apply nodes_when_ids_distinct. Qed.

Lemma one_node_per_entity_witness :
  NoDup (map Agent.id (Snapshot.agents Scenario.snapshot_a))
  /\ NoDup (map Asset.id (Snapshot.assets Scenario.snapshot_a))
  /\ NoDup (map Vulnerability.id (Snapshot.vulnerabilities Scenario.snapshot_a))
  /\ length (nodes Scenario.snapshot_a "all" "all") = 4.
Proof.
  assert (Ha : NoDup (map Agent.id (Snapshot.agents Scenario.snapshot_a))).
  { repeat constructor; intros []. }
  assert (Hs : NoDup (map Asset.id (Snapshot.assets Scenario.snapshot_a))).
  { repeat constructor; intros []. }
  assert (Hv : NoDup (map Vulnerability.id
                          (Snapshot.vulnerabilities Scenario.snapshot_a))).
  { apply NoDup_cons; [simpl; intros [H | []]; discriminate H |].
    apply NoDup_cons; [intros [] | apply NoDup_nil]. }
  split; [exact Ha |]. split; [exact Hs |]. split; [exact Hv |].
  rewrite (one_node_per_entity Scenario.snapshot_a "all" "all" Ha Hs Hv).
  reflexivity.
Defined.

(** X8: the filters only fade.  Whatever the agent and severity filters,
    the graph has the same nodes with the same ids, labels, kinds and
    severities as without filters; without filters no node is faded, and with
    filters the only classes a node can get are the five listed. *)
Theorem filters_only_fade :
  forall (snap : Snapshot.t) (af sf : string),
    map nodeFace (nodes snap af sf) = map nodeFace (nodes snap "all" "all")
    /\ (forall n, In n (nodes snap "all" "all") ->
                  In (node_classes n) ["agent"; "asset"; "vuln"])
    /\ (forall n, In n (nodes snap af sf) ->
                  In (node_classes n)
                     ["agent"; "agent faded"; "asset"; "vuln"; "vuln faded"]).
Proof.
  intros snap af sf. split; [| split].
  - unfold nodes. rewrite !map_app, !map_map. reflexivity.
  - intros n Hn. unfold nodes in Hn. rewrite !in_app_iff, !in_map_iff in Hn.
    destruct Hn as [[a [<- _]] | [[a [<- _]] | [v [<- _]]]]; simpl; auto 10.
  - intros n Hn. unfold nodes in Hn. rewrite !in_app_iff, !in_map_iff in Hn.
    destruct Hn as [[a [<- _]] | [[a [<- _]] | [v [<- _]]]].
    + unfold agentNode. cbn [node_classes].
      destruct (shouldFadeAgent af (Agent.id a)); simpl; auto 10.
    + simpl; auto 10.
    + unfold vulnNode. cbn [node_classes].
      destruct (shouldFadeVuln sf _); simpl; auto 10.
Qed.

Lemma filter_nil_none {A} (p : A -> bool) (l : list A) :
  filter p l = [] -> forall x, In x l -> p x = false.
Proof.
  induction l as [| y l IH]; simpl; [contradiction |].
  destruct (p y) eqn:E; [discriminate |].
  intros H x [<- | Hx]; [exact E | now apply IH].
Qed.

Lemma addClass_highlighted (n : CyNode) :
  isHighlighted (addClass "highlighted" n) = true.
Proof.
  unfold isHighlighted, addClass. cbn [cy_classes].
  destruct (existsb _ (cy_classes n)) eqn:E; [exact E |].
  rewrite existsb_app. simpl. now rewrite orb_true_r.
Qed.

Lemma selected_by_id (id : string) (cy : list CyNode) (n : CyNode) :
  In n cy ->
  existsb (fun m => cy_id m =? cy_id n) (filter (fun m => cy_id m =? id) cy)
  = (cy_id n =? id).
Proof.
  intro Hn. destruct (cy_id n =? id) eqn:E.
  - apply existsb_exists. exists n. split; [| apply String.eqb_refl].
    apply filter_In. now split.
  - destruct (existsb _ (filter _ cy)) eqn:Ex; [| reflexivity].
    apply existsb_exists in Ex. destruct Ex as [m [Hm Hsame]].
    apply filter_In in Hm. destruct Hm as [_ Hm].
    apply String.eqb_eq in Hm, Hsame. rewrite <- Hsame, Hm in E.
    now rewrite String.eqb_refl in E.
Qed.

(** X9: the highlight is exclusive.  For a highlight id without double
    quote, or none, and whatever was highlighted before: after the effect has
    run the nodes are the same and a node is highlighted exactly when a
    non-empty highlight id is set and it is the node's id; with no highlight
    id, or an empty one, no node is highlighted. *)
Theorem highlight_is_exclusive :
  forall (spliced : string -> list CyNode -> list CyNode)
         (h : option string) (cy : list CyNode),
    (forall id, h = Some id -> includes doubleQuote id = false) ->
    exists cy',
      highlightEffect spliced h (Some cy) = Some cy'
      /\ map cy_id cy' = map cy_id cy
      /\ forall n, In n cy' ->
                   isHighlighted n
                   = match h with
                     | Some id => negb (id =? "") && (cy_id n =? id)
                     | None => false
                     end.
Proof.
  intros spliced h cy Hplain. unfold highlightEffect.
  set (cleared := map (removeClass "highlighted") cy).
  assert (Hids : map cy_id cleared = map cy_id cy).
  { unfold cleared. rewrite map_map. reflexivity. }
  assert (Hclear : forall n, In n cleared -> isHighlighted n = false).
  { intros n Hn. apply in_map_iff in Hn. destruct Hn as [m [<- _]].
    apply removeClass_not_highlighted. }
  destruct h as [id |]; [| exists cleared; auto].
  rewrite (selectById_plain spliced id cleared (Hplain id eq_refl)).
  destruct (id =? "") eqn:Eid; simpl; [exists cleared; auto |].
  destruct (0 <? length (filter (fun n => (cy_id n =? id)%string) cleared))%nat
    eqn:Elen.
  - eexists. split; [reflexivity |]. split.
    + rewrite map_map, <- Hids. apply map_ext. intro n.
      now destruct (existsb _ _).
    + intros n Hn. apply in_map_iff in Hn. destruct Hn as [m [<- Hm]].
      rewrite (selected_by_id id cleared m Hm).
      destruct (cy_id m =? id) eqn:Em.
      * rewrite addClass_highlighted. cbn [cy_id addClass]. now rewrite Em.
      * rewrite Em. now apply Hclear.
  - exists cleared. split; [reflexivity |]. split; [exact Hids |].
    intros n Hn. rewrite (Hclear n Hn). symmetry.
    apply Nat.ltb_ge in Elen.
    assert (Hnil : filter (fun n => cy_id n =? id) cleared = [])
      by (destruct (filter _ cleared); [reflexivity | simpl in Elen; lia]).
    exact (filter_nil_none _ _ Hnil n Hn).
Qed.

Lemma highlight_is_exclusive_witness :
  (forall id, Some "asset:s1" = Some id -> includes doubleQuote id = false)
  /\ exists cy',
       highlightEffect Scenario.every_node (Some "asset:s1")
         (Some (cyNodes (elements (Some Scenario.snapshot_a) "all" "all")))
       = Some cy'
       /\ map cy_id cy' = ["agent:a1"; "asset:s1"; "vuln:v1"; "vuln:v2"]
       /\ forall n, In n cy' ->
                    isHighlighted n = negb ("asset:s1" =? "") && (cy_id n =? "asset:s1").
Proof.
  assert (H : forall id, Some "asset:s1" = Some id ->
                         includes doubleQuote id = false).
  { intros id Hid. injection Hid as <-. reflexivity. }
  split; [exact H |].
  exact (highlight_is_exclusive Scenario.every_node (Some "asset:s1")
           (cyNodes (elements (Some Scenario.snapshot_a) "all" "all")) H).
Defined.

(** ** Values derived for the terminal *)

(** X10: the time filter is monotone in its window.  "all" keeps every
    call; at one clock reading every call kept by "5m" is kept by "15m",
    every call kept by "15m" is kept by "1h", every call kept by any window is
    one of the calls; and a call whose time stamp does not parse is dropped by
    every window other than "all". *)
Theorem time_filter_monotone :
  forall (getTime : string -> option Z) (now : Z) (calls : list ToolCall.t),
    let shown := timeFilteredCalls getTime now calls in
    shown "all" = calls
    /\ (forall c, In c (shown "5m") -> In c (shown "15m"))
    /\ (forall c, In c (shown "15m") -> In c (shown "1h"))
    /\ (forall range c, In c (shown range) -> In c calls)
    /\ (forall range c, range <> "all" -> getTime (ToolCall.ts c) = None ->
                        ~ In c (shown range)).
Proof.
  intros getTime now calls. cbv zeta.
  split; [reflexivity |].
  split; [| split; [| split]].
  - intro c. unfold timeFilteredCalls, computeThreshold. cbn [String.eqb Ascii.eqb Bool.eqb].
    rewrite !filter_In. intros [Hin H]. split; [exact Hin |].
    destruct (getTime (ToolCall.ts c)); [| discriminate].
    apply Z.leb_le in H. apply Z.leb_le. lia.
  - intro c. unfold timeFilteredCalls, computeThreshold. cbn [String.eqb Ascii.eqb Bool.eqb].
    rewrite !filter_In. intros [Hin H]. split; [exact Hin |].
    destruct (getTime (ToolCall.ts c)); [| discriminate].
    apply Z.leb_le in H. apply Z.leb_le. lia.
  - intros range c. unfold timeFilteredCalls.
    destruct (range =? "all"); [auto |].
    rewrite filter_In. tauto.
  - intros range c Hrange Hnan. unfold timeFilteredCalls.
    apply String.eqb_neq in Hrange. rewrite Hrange.
    rewrite filter_In. rewrite Hnan. intros [_ H]. discriminate.
Qed.

Lemma matchesAsset_iff (f : string) (c : ToolCall.t) :
  matchesAsset f c = true
  <-> ToolCall.target c = Val f \/ args_url (ToolCall.args c) = JStr f.
Proof.
  unfold matchesAsset, strict_eq_str. rewrite orb_true_iff, strict_eq_iff.
  assert (Hv : value_is_string (args_url (ToolCall.args c)) f = true
               <-> args_url (ToolCall.args c) = JStr f).
  { destruct (args_url (ToolCall.args c)); simpl; split; intro H;
      try discriminate.
    - apply String.eqb_eq in H. now subst.
    - inversion H. apply String.eqb_refl. }
  tauto.
Qed.

Lemma asset_tap_filter (a : Asset.t) (st : State) :
  assetTerminalFilter (handleNodeSelect (tap (OnNode (assetNode a))) st)
  = rawIdOf ("asset:" ++ Asset.id a).
Proof. reflexivity. Qed.

(** X11: after a tap on the node of an asset whose id is not empty and
    holds no colon, the calls handed to the terminal are exactly the calls
    whose target is that id or whose args.url is that id, in their order; a
    deselect hands all calls over again. *)
Theorem asset_tap_cross_filters_terminal :
  forall (a : Asset.t) (st : State) (calls : list ToolCall.t),
    includes ":" (Asset.id a) = false ->
    Asset.id a <> "" ->
    let st' := handleNodeSelect (tap (OnNode (assetNode a))) st in
    assetFilteredCalls calls (assetTerminalFilter st')
    = filter (matchesAsset (Asset.id a)) calls
    /\ (forall c,
           In c (assetFilteredCalls calls (assetTerminalFilter st'))
           <-> In c calls
               /\ (ToolCall.target c = Val (Asset.id a)
                   \/ args_url (ToolCall.args c) = JStr (Asset.id a)))
    /\ assetFilteredCalls calls
         (assetTerminalFilter (handleNodeSelect (tap OnBackground) st'))
       = calls.
Proof.
  intros a st calls Hcolon Hne. cbv zeta.
  rewrite asset_tap_filter.
  assert (Hr : rawIdOf ("asset:" ++ Asset.id a) = Some (Asset.id a))
    by apply (rawIdOf_plain "asset" (Asset.id a) eq_refl Hcolon).
  rewrite Hr. unfold assetFilteredCalls.
  apply String.eqb_neq in Hne. rewrite Hne.
  split; [reflexivity |]. split; [| reflexivity].
  intro c. rewrite filter_In, matchesAsset_iff. tauto.
Qed.

Lemma asset_tap_cross_filters_witness :
  includes ":" (Asset.id Scenario.asset_s1) = false
  /\ Asset.id Scenario.asset_s1 <> ""
  /\ assetFilteredCalls
       [Scenario.call_a; Scenario.call_b; Scenario.call_nostatus]
       (assetTerminalFilter
          (handleNodeSelect (tap (OnNode (assetNode Scenario.asset_s1)))
                            Scenario.showing_a))
     = [Scenario.call_a].
Proof.
  split; [reflexivity |]. split; [discriminate |].
  apply (asset_tap_cross_filters_terminal Scenario.asset_s1 Scenario.showing_a
           [Scenario.call_a; Scenario.call_b; Scenario.call_nostatus] eq_refl).
  discriminate.
Defined.

(** ** The choices offered by the select boxes *)

Lemma Set_has_In (s : list string) (x : string) : Set_has s x = true <-> In x s.
Proof.
  unfold Set_has. rewrite existsb_exists. split.
  - intros [y [Hy E]]. apply String.eqb_eq in E. now subst.
  - intro H. exists x. split; [exact H | apply String.eqb_refl].
Qed.

Lemma Set_add_In (x y : string) (s : list string) :
  In y (Set_add x s) <-> y = x \/ In y s.
Proof.
  unfold Set_add. destruct (Set_has s x) eqn:E.
  - apply Set_has_In in E. split; [now right | intros [-> | H]; assumption].
  - rewrite in_app_iff. simpl. split.
    + intros [H | [<- | []]]; auto.
    + intros [-> | H]; auto.
Qed.

Lemma Set_add_NoDup (x : string) (s : list string) :
  NoDup s -> NoDup (Set_add x s).
Proof.
  intro H. unfold Set_add. destruct (Set_has s x) eqn:E; [exact H |].
  apply NoDup_app; [exact H | repeat constructor; intros [] |].
  intros a Ha [<- | []]. apply Set_has_In in Ha. congruence.
Qed.

Lemma Set_fold (l s : list string) :
  NoDup s ->
  NoDup (fold_left (fun s x => Set_add x s) l s)
  /\ forall y, In y (fold_left (fun s x => Set_add x s) l s) <-> In y s \/ In y l.
Proof.
  revert s. induction l as [| x l IH]; intros s Hs; simpl.
  - split; [exact Hs | intro y; tauto].
  - destruct (IH _ (Set_add_NoDup x s Hs)) as [Hn Hin].
    split; [exact Hn |]. intro y. rewrite Hin, Set_add_In.
    split.
    + intros [[-> | H] | H]; auto.
    + intros [H | [<- | H]]; auto.
Qed.

(** [Array.from(new Set(l))] has the members of [l], each once. *)
Lemma Set_new_spec (l : list string) :
  NoDup (Set_new l) /\ forall y, In y (Set_new l) <-> In y l.
Proof.
  destruct (Set_fold l [] (NoDup_nil _)) as [Hn Hin].
  split; [exact Hn |]. intro y. unfold Set_new. rewrite Hin. simpl. tauto.
Qed.

Lemma truthyStrings_In (l : list (nullable string)) (s : string) :
  In s (truthyStrings l) <-> s <> "" /\ In (Val s) l.
Proof.
  unfold truthyStrings. rewrite in_flat_map. split.
  - intros [x [Hx Hs]]. destruct x as [| | a]; simpl in Hs; try contradiction.
    destruct (a =? "") eqn:E; simpl in Hs; [contradiction |].
    destruct Hs as [<- | []]. split; [now apply String.eqb_neq | exact Hx].
  - intros [Hne Hin]. exists (Val s). split; [exact Hin |]. simpl.
    apply String.eqb_neq in Hne. rewrite Hne. now left.
Qed.

(** X12: the severities offered by the severity select box are pairwise
    distinct, and a string is offered exactly when it is not empty and is the
    lower-cased severity of some vulnerability of the snapshot; a missing
    severity contributes nothing, and without a snapshot nothing is
    offered. *)
Theorem severity_options_are_present_severities :
  forall (snap : Snapshot.t),
    severityOptions None = []
    /\ NoDup (severityOptions (Some snap))
    /\ forall s : string,
         In s (severityOptions (Some snap))
         <-> s <> ""
             /\ exists v sev,
                  In v (Snapshot.vulnerabilities snap)
                  /\ Vulnerability.severity v = Val sev
                  /\ toLowerCase sev = s.
Proof.
  intro snap. split; [reflexivity |]. unfold severityOptions.
  destruct (Set_new_spec
              (truthyStrings
                 (map (fun v => toLowerCase_opt (Vulnerability.severity v))
                      (Snapshot.vulnerabilities snap)))) as [Hn Hin].
  split; [exact Hn |]. intro s.
  rewrite Hin, truthyStrings_In, in_map_iff. split.
  - intros [Hne [v [Hv Hin']]]. split; [exact Hne |].
    destruct (Vulnerability.severity v) as [| | sev] eqn:E; try discriminate.
    exists v, sev. simpl in Hv. inversion Hv. auto.
  - intros [Hne [v [sev [Hv [Hsev Hlow]]]]]. split; [exact Hne |].
    exists v. split; [| exact Hv]. rewrite Hsev. simpl. now rewrite Hlow.
Qed.

(** X13: when the vulnerability ids of the snapshot are distinct, every
    severity that the select box offers leaves at least one vulnerability node
    unfaded when it is chosen. *)
Theorem offered_severity_shows_a_node :
  forall (snap : Snapshot.t) (af s : string),
    NoDup (map Vulnerability.id (Snapshot.vulnerabilities snap)) ->
    In s (severityOptions (Some snap)) ->
    exists n,
      In n (nodes snap af s)
      /\ node_entityType n = vuln
      /\ node_classes n = "vuln".
Proof.
  intros snap af s Hids Hs. unfold severityOptions in Hs.
  apply (proj1 (proj2 (Set_new_spec _) s)) in Hs. apply truthyStrings_In in Hs.
  destruct Hs as [_ Hs]. apply in_map_iff in Hs. destruct Hs as [v [Hv Hin]].
  exists (vulnNode s v). split; [| split; [reflexivity |]].
  - unfold nodes. apply in_or_app. right. apply in_or_app. right.
    apply in_map. unfold vulns, Map_values.
    rewrite Map_new_distinct by (rewrite map_map; simpl; assumption).
    rewrite map_map. simpl. now rewrite map_id.
  - rewrite vulnNode_faded. rewrite Hv. simpl.
    now rewrite String.eqb_refl, andb_false_r.
Qed.

Lemma offered_severity_witness :
  NoDup (map Vulnerability.id (Snapshot.vulnerabilities Scenario.snapshot_a))
  /\ In "low" (severityOptions (Some Scenario.snapshot_a))
  /\ exists n,
       In n (nodes Scenario.snapshot_a "all" "low")
       /\ node_entityType n = vuln
       /\ node_classes n = "vuln".
Proof.
  assert (Hv : NoDup (map Vulnerability.id
                          (Snapshot.vulnerabilities Scenario.snapshot_a))).
  { apply NoDup_cons; [simpl; intros [H | []]; discriminate H |].
    apply NoDup_cons; [intros [] | apply NoDup_nil]. }
  assert (Hin : In "low" (severityOptions (Some Scenario.snapshot_a)))
    by (now left).
  split; [exact Hv |]. split; [exact Hin |].
  exact (offered_severity_shows_a_node Scenario.snapshot_a "all" "low" Hv Hin).
Defined.

Lemma options_spec (field : ToolCall.t -> nullable string)
      (calls : list ToolCall.t) :
  NoDup (Set_new (truthyStrings (map field calls)))
  /\ forall a : string,
       In a (Set_new (truthyStrings (map field calls)))
       <-> a <> "" /\ exists c, In c calls /\ field c = Val a.
Proof.
  destruct (Set_new_spec (truthyStrings (map field calls))) as [Hn Hin].
  split; [exact Hn |]. intro a.
  rewrite Hin, truthyStrings_In, in_map_iff.
  split; intros [Hne [c [H1 H2]]]; (split; [exact Hne |]); exists c; auto.
Qed.

(** X14: the agents and tools offered by the select boxes of the terminal
    are pairwise distinct and are exactly the non-empty agent ids and tool
    names of the calls shown; choosing any offered agent, or any offered tool,
    with the other filters off always leaves at least one row. *)
Theorem terminal_options_are_present_values :
  forall (calls : list ToolCall.t),
    NoDup (Options.agents calls)
    /\ NoDup (Options.tools calls)
    /\ (forall a, In a (Options.agents calls)
                  <-> a <> "" /\ exists c, In c calls /\ ToolCall.agent_id c = Val a)
    /\ (forall t, In t (Options.tools calls)
                  <-> t <> "" /\ exists c, In c calls /\ ToolCall.tool c = Val t)
    /\ (forall a, In a (Options.agents calls) ->
                  filteredCalls calls
                    {| agentId := a; tool := "all";
                       onlyErrors := false; onlySuccess := false |} <> [])
    /\ (forall t, In t (Options.tools calls) ->
                  filteredCalls calls
                    {| agentId := "all"; tool := t;
                       onlyErrors := false; onlySuccess := false |} <> []).
Proof.
  intro calls.
  destruct (options_spec ToolCall.agent_id calls) as [Hna Hia].
  destruct (options_spec ToolCall.tool calls) as [Hnt Hit].
  split; [exact Hna |]. split; [exact Hnt |].
  split; [exact Hia |]. split; [exact Hit |]. split.
  - intros a Ha. apply Hia in Ha. destruct Ha as [_ [c [Hc Hid]]].
    assert (Hkeep : In c (filteredCalls calls
                            {| agentId := a; tool := "all";
                               onlyErrors := false; onlySuccess := false |})).
    { apply filter_In. split; [exact Hc |]. unfold keepCall. simpl.
      rewrite Hid. unfold strict_eq_str. simpl. rewrite String.eqb_refl.
      now rewrite andb_false_r. }
    intro Hnil. rewrite Hnil in Hkeep. contradiction.
  - intros t Ht. apply Hit in Ht. destruct Ht as [_ [c [Hc Hid]]].
    assert (Hkeep : In c (filteredCalls calls
                            {| agentId := "all"; tool := t;
                               onlyErrors := false; onlySuccess := false |})).
    { apply filter_In. split; [exact Hc |]. unfold keepCall. simpl.
      rewrite Hid. unfold strict_eq_str. simpl. rewrite String.eqb_refl.
      now rewrite andb_false_r. }
    intro Hnil. rewrite Hnil in Hkeep. contradiction.
Qed.

(** ** Details panel *)

Lemma find_by_id {A} (f : A -> string) (l : list A) (a : A) :
  In a l ->
  exists a', find (fun candidate => NodeDetailsPanel.equals (Some (f a)) (f candidate)) l
             = Some a'
             /\ f a' = f a.
Proof.
  intro Hin.
  destruct (find (fun candidate => NodeDetailsPanel.equals (Some (f a)) (f candidate)) l)
    as [a' |] eqn:E.
  - exists a'. split; [reflexivity |].
    apply find_some in E. destruct E as [_ E]. simpl in E.
    apply String.eqb_eq in E. now symmetry.
  - exfalso. pose proof (find_none _ _ E a Hin) as H. simpl in H.
    now rewrite String.eqb_refl in H.
Qed.

Lemma find_by_missing_id {A} (f : A -> string) (l : list A) (raw : string) :
  ~ In raw (map f l) ->
  find (fun candidate => NodeDetailsPanel.equals (Some raw) (f candidate)) l = None.
Proof.
  intro Hno.
  destruct (find _ l) as [a |] eqn:E; [| reflexivity].
  apply find_some in E. destruct E as [Hin E]. simpl in E.
  apply String.eqb_eq in E. exfalso. apply Hno. subst. now apply in_map.
Qed.

Lemma panel_parts (kind raw : string) (t : EntityType) :
  includes ":" kind = false -> includes ":" raw = false ->
  NodeDetailsPanel.parts {| id := kind ++ ":" ++ raw; entityType := t |}
  = [kind; raw].
Proof.
  intros Hk Hr. unfold NodeDetailsPanel.parts. cbn [id].
  change (kind ++ ":" ++ raw) with (kind ++ String ":" raw).
  assert (Hinc : includes ":" (kind ++ String ":" raw) = true).
  { clear Hk. induction kind as [| c k IH]; simpl; [reflexivity |].
    rewrite IH. apply orb_true_r. }
  rewrite Hinc. unfold split_limit.
  rewrite (split_at_separator _ _ _ Hk), (split_without_separator _ _ Hr).
  reflexivity.
Qed.

(** X15: for a tapped node of an agent of the snapshot whose id holds no
    colon, the details panel shows an agent with that id (the first one
    listed), never nothing, with the targets of the edges that leave it; for a
    tapped node of such an asset it shows an asset with that id, the edges
    that reach it from an agent and the vulnerabilities that name it; for a
    tapped node of such a vulnerability it shows a vulnerability with that id.
    Each of the three holds whatever else the snapshot holds. *)
Theorem panel_shows_tapped_entity :
  forall (snap : Snapshot.t) (af sf : string),
    (forall a : Agent.t,
        In a (Snapshot.agents snap) -> includes ":" (Agent.id a) = false ->
        exists a',
          Agent.id a' = Agent.id a
          /\ NodeDetailsPanel.render (tap (OnNode (agentNode af a))) (Some snap)
             = NodeDetailsPanel.AgentDetails a'
                 (map Edge.target
                      (filter (fun e => Edge.source e =? Agent.id a)
                              (Snapshot.edges snap))))
    /\ (forall s : Asset.t,
           In s (Snapshot.assets snap) -> includes ":" (Asset.id s) = false ->
           exists s',
             Asset.id s' = Asset.id s
             /\ NodeDetailsPanel.render (tap (OnNode (assetNode s))) (Some snap)
                = NodeDetailsPanel.AssetDetails s'
                    (filter (fun e => (Edge.target e =? Asset.id s)
                                      && Set_has (Set_new (map Agent.id (Snapshot.agents snap)))
                                                 (Edge.source e))
                            (Snapshot.edges snap))
                    (filter (fun x => strict_eq_str (Vulnerability.asset_id x) (Asset.id s))
                            (Snapshot.vulnerabilities snap)))
    /\ (forall v : Vulnerability.t,
           In v (Snapshot.vulnerabilities snap) ->
           includes ":" (Vulnerability.id v) = false ->
           exists v',
             Vulnerability.id v' = Vulnerability.id v
             /\ NodeDetailsPanel.render (tap (OnNode (vulnNode sf v))) (Some snap)
                = NodeDetailsPanel.VulnDetails v').
Proof.
  intros snap af sf.
  split; [| split].
  - intros a Ha Hca.
    destruct (find_by_id Agent.id _ a Ha) as [a' [Hfind Hid]].
    exists a'. split; [exact Hid |].
    unfold NodeDetailsPanel.render, tap, agentNode.
    cbn [node_id node_entityType].
    change ("agent:" ++ Agent.id a) with ("agent" ++ ":" ++ Agent.id a).
    rewrite (panel_parts "agent" (Agent.id a) agent eq_refl Hca).
    cbn [nth_error].
    change (NodeDetailsPanel.equals (Some "agent") "agent") with true. cbv iota.
    rewrite Hfind, Hid. reflexivity.
  - intros s Hs Hcs.
    destruct (find_by_id Asset.id _ s Hs) as [s' [Hfind Hid]].
    exists s'. split; [exact Hid |].
    unfold NodeDetailsPanel.render, tap, assetNode.
    cbn [node_id node_entityType].
    change ("asset:" ++ Asset.id s) with ("asset" ++ ":" ++ Asset.id s).
    rewrite (panel_parts "asset" (Asset.id s) asset eq_refl Hcs).
    cbn [nth_error].
    change (NodeDetailsPanel.equals (Some "asset") "agent") with false.
    change (NodeDetailsPanel.equals (Some "asset") "asset") with true. cbv iota.
    rewrite Hfind, Hid. reflexivity.
  - intros v Hv Hcv.
    destruct (find_by_id Vulnerability.id _ v Hv) as [v' [Hfind Hid]].
    exists v'. split; [exact Hid |].
    unfold NodeDetailsPanel.render, tap, vulnNode.
    cbn [node_id node_entityType].
    change ("vuln:" ++ Vulnerability.id v) with ("vuln" ++ ":" ++ Vulnerability.id v).
    rewrite (panel_parts "vuln" (Vulnerability.id v) vuln eq_refl Hcv).
    cbn [nth_error].
    change (NodeDetailsPanel.equals (Some "vuln") "agent") with false.
    change (NodeDetailsPanel.equals (Some "vuln") "asset") with false. cbv iota.
    rewrite Hfind. reflexivity.
Qed.

(** The three statements at run-a, and the first at a snapshot that holds
    one agent and nothing else. *)
Lemma panel_shows_tapped_entity_witness :
  (exists a',
      Agent.id a' = "a1"
      /\ NodeDetailsPanel.render
           (tap (OnNode (agentNode "all" Scenario.agent_a1)))
           (Some Scenario.snapshot_a)
         = NodeDetailsPanel.AgentDetails a' ["ghost"])
  /\ (exists s',
         Asset.id s' = "s1"
         /\ NodeDetailsPanel.render
              (tap (OnNode (assetNode Scenario.asset_s1)))
              (Some Scenario.snapshot_a)
            = NodeDetailsPanel.AssetDetails s' [] [Scenario.vuln_low])
  /\ (exists v',
         Vulnerability.id v' = "v1"
         /\ NodeDetailsPanel.render
              (tap (OnNode (vulnNode "all" Scenario.vuln_low)))
              (Some Scenario.snapshot_a)
            = NodeDetailsPanel.VulnDetails v')
  /\ (exists a',
         Agent.id a' = "a1"
         /\ NodeDetailsPanel.render
              (tap (OnNode (agentNode "all" Scenario.agent_a1)))
              (Some Scenario.snapshot_agent_only)
            = NodeDetailsPanel.AgentDetails a' []).
Proof.
  destruct (panel_shows_tapped_entity Scenario.snapshot_a "all" "all")
    as [Ha [Hs Hv]].
  destruct (panel_shows_tapped_entity Scenario.snapshot_agent_only "all" "all")
    as [Ha' _].
  split; [exact (Ha Scenario.agent_a1 (or_introl eq_refl) eq_refl) |].
  split; [exact (Hs Scenario.asset_s1 (or_introl eq_refl) eq_refl) |].
  split; [exact (Hv Scenario.vuln_low (or_introl eq_refl) eq_refl) |].
  exact (Ha' Scenario.agent_a1 (or_introl eq_refl) eq_refl).
Defined.

(** X16: the panel shows its placeholder while nothing is selected or no
    snapshot is loaded, and renders nothing for a selection whose colon-free
    raw id is not the id of an entity of the selected kind in the snapshot
    (a selection left over from another run, for one); the kind is read from
    the prefix of the id, not from the entity type of the selection. *)
Theorem panel_empty_for_unknown_selection :
  forall (snap : Snapshot.t) (raw : string) (t : EntityType)
         (sel : option GraphSelection),
    NodeDetailsPanel.render None (Some snap) = NodeDetailsPanel.Placeholder
    /\ NodeDetailsPanel.render sel None = NodeDetailsPanel.Placeholder
    /\ (includes ":" raw = false ->
        (~ In raw (map Agent.id (Snapshot.agents snap)) ->
         NodeDetailsPanel.render
           (Some {| id := "agent:" ++ raw; entityType := t |}) (Some snap)
         = NodeDetailsPanel.Nothing)
        /\ (~ In raw (map Asset.id (Snapshot.assets snap)) ->
            NodeDetailsPanel.render
              (Some {| id := "asset:" ++ raw; entityType := t |}) (Some snap)
            = NodeDetailsPanel.Nothing)
        /\ (~ In raw (map Vulnerability.id (Snapshot.vulnerabilities snap)) ->
            NodeDetailsPanel.render
              (Some {| id := "vuln:" ++ raw; entityType := t |}) (Some snap)
            = NodeDetailsPanel.Nothing)).
Proof.
  intros snap raw t sel. split; [reflexivity |].
  split; [now destruct sel |].
  intro Hraw. split; [| split]; intro Hno; unfold NodeDetailsPanel.render.
  - change ("agent:" ++ raw) with ("agent" ++ ":" ++ raw).
    rewrite (panel_parts "agent" raw t eq_refl Hraw).
    cbn [nth_error].
    change (NodeDetailsPanel.equals (Some "agent") "agent") with true. cbv iota.
    now rewrite (find_by_missing_id Agent.id _ raw Hno).
  - change ("asset:" ++ raw) with ("asset" ++ ":" ++ raw).
    rewrite (panel_parts "asset" raw t eq_refl Hraw).
    cbn [nth_error].
    change (NodeDetailsPanel.equals (Some "asset") "agent") with false.
    change (NodeDetailsPanel.equals (Some "asset") "asset") with true. cbv iota.
    now rewrite (find_by_missing_id Asset.id _ raw Hno).
  - change ("vuln:" ++ raw) with ("vuln" ++ ":" ++ raw).
    rewrite (panel_parts "vuln" raw t eq_refl Hraw).
    cbn [nth_error].
    change (NodeDetailsPanel.equals (Some "vuln") "agent") with false.
    change (NodeDetailsPanel.equals (Some "vuln") "asset") with false. cbv iota.
    now rewrite (find_by_missing_id Vulnerability.id _ raw Hno).
Qed.

(** ** Run list *)

Lemma fetchRuns_form (status : nat) (data : list RunMetadata.t) (st : State) :
  ok status = true ->
  fetchRuns_settle (selectedRun st) (RunsResponded status (RunsData data)) st
  = setSelectedRun
      (match data with
       | [] => ""
       | first :: _ =>
           if (selectedRun st =? "")
              || negb (existsb (fun r => RunMetadata.id r =? selectedRun st) data)
           then RunMetadata.id first
           else selectedRun st
       end)
      (setRuns data st).
Proof.
  intro Hok. unfold fetchRuns_settle. rewrite Hok. cbn [negb].
  destruct data as [| first rest]; [reflexivity |].
  destruct ((selectedRun st =? "") || _); [reflexivity | now destruct st].
Qed.

Lemma listed_iff (data : list RunMetadata.t) (x : string) :
  existsb (fun r => RunMetadata.id r =? x) data = true
  <-> In x (map RunMetadata.id data).
Proof.
  rewrite existsb_exists, in_map_iff.
  split; intros [r [H1 H2]]; exists r.
  - apply String.eqb_eq in H2. now split.
  - split; [exact H2 | now apply String.eqb_eq].
Qed.

(** X17: when the run list arrives (2xx) and the selection has not changed
    since the request was made, the list is stored and the selected run ends
    up empty for an empty list and one of the listed runs otherwise: a
    selection that is still listed is kept, any other is replaced by the first
    run of the list.  Snapshot, tool calls, filters and selection are not
    touched. *)
Theorem fetched_runs_select_a_listed_run :
  forall (status : nat) (data : list RunMetadata.t) (st : State),
    ok status = true ->
    let st' := fetchRuns_settle (selectedRun st)
                                (RunsResponded status (RunsData data)) st in
    runs st' = data
    /\ (data = [] -> selectedRun st' = "")
    /\ (data <> [] -> In (selectedRun st') (map RunMetadata.id data))
    /\ (selectedRun st <> "" ->
        In (selectedRun st) (map RunMetadata.id data) ->
        selectedRun st' = selectedRun st)
    /\ (~ In (selectedRun st) (map RunMetadata.id data) ->
        selectedRun st' = match data with
                          | [] => ""
                          | first :: _ => RunMetadata.id first
                          end)
    /\ st' = setSelectedRun (selectedRun st') (setRuns data st).
Proof.
  intros status data st Hok. cbv zeta.
  rewrite (fetchRuns_form status data st Hok).
  cbn [runs selectedRun setSelectedRun setRuns].
  split; [reflexivity |].
  split; [now intros -> |].
  split; [| split; [| split; [| reflexivity]]].
  - intro Hne. destruct data as [| first rest]; [congruence |].
    destruct (selectedRun st =? ""); cbn [orb]; [now left |].
    destruct (existsb _ (first :: rest)) eqn:E; cbn [negb]; [| now left].
    now apply listed_iff.
  - intros Hsel Hin. destruct data as [| first rest]; [contradiction |].
    apply String.eqb_neq in Hsel. apply listed_iff in Hin.
    now rewrite Hsel, Hin.
  - intro Hno. destruct data as [| first rest]; [reflexivity |].
    destruct (existsb (fun r => RunMetadata.id r =? selectedRun st) (first :: rest))
      eqn:E.
    + apply listed_iff in E. contradiction.
    + now rewrite orb_true_r.
Qed.

Lemma fetched_runs_witness :
  ok 200 = true
  /\ selectedRun (fetchRuns_settle (selectedRun initialState)
                    (RunsResponded 200 (RunsData Scenario.run_list)) initialState)
     = "run-a".
Proof.
  split; [reflexivity |].
  destruct (fetched_runs_select_a_listed_run 200 Scenario.run_list initialState
              eq_refl) as [_ [_ [_ [_ [H _]]]]].
  apply H. simpl. intros [H1 | [H1 | []]]; discriminate H1.
Defined.

(** ** Snapshot store and live events together *)

(** X18: one load, from the call to the settling of the fetch, ends with
    the loading flag cleared and in one of three states.  The response was
    2xx and its body a snapshot: the snapshot is the response, the tool calls
    are its tool calls (none when it has none) and no error is shown.  The
    response was 2xx and its body null: the snapshot has been cleared, the
    tool calls are as before the load, and the message of the type error is
    shown.  Anything else (rejected fetch, status outside 200-299, body that
    does not parse): snapshot and tool calls are as before the load and an
    error message is shown.  Nothing else changes. *)
Theorem load_cycle_outcomes :
  forall (runId : string) (r : fetch_result) (st : State),
    let st' := loadSnapshot_settle runId r (loadSnapshot_begin runId st) in
    loading st' = false
    /\ ((exists status statusText data,
            r = Responded status statusText (JsonData data)
            /\ ok status = true
            /\ snapshot st' = Some data
            /\ toolCalls st' = orElse (Snapshot.tool_calls data) []
            /\ error st' = None)
        \/ (exists status statusText typeError,
               r = Responded status statusText (JsonNull typeError)
               /\ ok status = true
               /\ snapshot st' = None
               /\ toolCalls st' = toolCalls st
               /\ error st' = Some typeError)
        \/ ((forall status statusText typeError,
                r = Responded status statusText (JsonNull typeError) ->
                ok status = false)
            /\ snapshot st' = snapshot st
            /\ toolCalls st' = toolCalls st
            /\ exists message, error st' = Some message))
    /\ st' = setLoading false
               (setError (error st')
                  (setToolCalls (fun _ => toolCalls st')
                     (setSnapshot (snapshot st') st))).
Proof.
  intros runId r st. cbv zeta.
  unfold loadSnapshot_settle, loadSnapshot_try, loadSnapshot_begin.
  destruct r as [[message | ] | status statusText [e | typeError | data]].
  - simpl. split; [reflexivity |]. split; [| reflexivity].
    right. right. split; [discriminate |]. eauto.
  - simpl. split; [reflexivity |]. split; [| reflexivity].
    right. right. split; [discriminate |]. eauto.
  - assert (Hno : forall status0 statusText0 typeError,
               Responded status statusText (JsonRejected e)
               = Responded status0 statusText0 (JsonNull typeError) ->
               ok status0 = false) by discriminate.
    destruct (ok status); simpl.
    + destruct e; simpl; (split; [reflexivity |]);
        (split; [right; right; split; [exact Hno | eauto] | reflexivity]).
    + split; [reflexivity |].
      split; [right; right; split; [exact Hno | eauto] | reflexivity].
  - destruct (ok status) eqn:Hok; simpl.
    + split; [reflexivity |]. split; [| reflexivity].
      right. left. exists status, statusText, typeError.
      repeat split; try reflexivity. exact Hok.
    + split; [reflexivity |]. split; [| reflexivity].
      right. right. split; [| eauto].
      intros status0 statusText0 typeError0 H. injection H as -> _ _.
      exact Hok.
  - assert (Hno : forall status0 statusText0 typeError,
               Responded status statusText (JsonData data)
               = Responded status0 statusText0 (JsonNull typeError) ->
               ok status0 = false) by discriminate.
    destruct (ok status) eqn:Hok; simpl.
    + split; [reflexivity |]. split; [| reflexivity].
      left. exists status, statusText, data. repeat split; try reflexivity.
      exact Hok.
    + split; [reflexivity |].
      split; [right; right; split; [exact Hno | eauto] | reflexivity].
Qed.

Lemma string_or_undefined_not_null (v : value) : string_or_undefined v <> Null.
Proof. destruct v; simpl; discriminate. Qed.

(** X19: a stored ToolCall in which one of agent_id, tool, target or
    result_summary is null never equals a live call, because a live call holds
    a string or nothing in these fields; so when every stored call has such a
    null, each live tool call is appended. *)
Theorem null_fields_defeat_dedup :
  forall (now rnd : string) (ev : LiveEvent.t) (st : State),
    LiveEvent.type ev = Some "mcp_tool_call" ->
    (forall c, In c (toolCalls st) ->
               ToolCall.agent_id c = Null \/ ToolCall.tool c = Null
               \/ ToolCall.target c = Null \/ ToolCall.result_summary c = Null) ->
    (forall c, In c (toolCalls st) ->
               isSameToolCall c (mapEventToToolCall now rnd ev) = false)
    /\ toolCalls (socket_onmessage now rnd (Parsed ev) st)
       = (toolCalls st ++ [mapEventToToolCall now rnd ev])%list.
Proof.
  intros now rnd ev st Htype Hnull.
  assert (Hdiff : forall c, In c (toolCalls st) ->
                            isSameToolCall c (mapEventToToolCall now rnd ev) = false).
  { intros c Hc.
    destruct (isSameToolCall c (mapEventToToolCall now rnd ev)) eqn:E;
      [| reflexivity].
    apply isSameToolCall_iff in E. unfold dedupKey in E. simpl in E.
    inversion E as [[Hts Ha Ht Htg Hr]].
    destruct (Hnull c Hc) as [H | [H | [H | H]]];
      rewrite H in *; exfalso;
      eapply string_or_undefined_not_null; symmetry; eassumption. }
  split; [exact Hdiff |].
  rewrite (onmessage_tool_call now rnd ev st Htype).
  apply appendUnlessPresent_fresh.
  intros [c [Hc Hkey]]. apply isSameToolCall_iff in Hkey.
  rewrite (Hdiff c Hc) in Hkey. discriminate.
Qed.

Lemma null_fields_defeat_dedup_witness :
  LiveEvent.type Scenario.event_stamped = Some "mcp_tool_call"
  /\ (forall c, In c (toolCalls Scenario.showing_a) ->
                ToolCall.agent_id c = Null \/ ToolCall.tool c = Null
                \/ ToolCall.target c = Null \/ ToolCall.result_summary c = Null)
  /\ length (toolCalls (socket_onmessage "2024-05-01T10:06:00.000Z" "k3x9"
                          (Parsed Scenario.event_stamped) Scenario.showing_a))
     = 2.
Proof.
  assert (H : forall c, In c (toolCalls Scenario.showing_a) ->
                        ToolCall.agent_id c = Null \/ ToolCall.tool c = Null
                        \/ ToolCall.target c = Null
                        \/ ToolCall.result_summary c = Null).
  { intros c [<- | []]. right. right. right. reflexivity. }
  split; [reflexivity |]. split; [exact H |].
  rewrite (proj2 (null_fields_defeat_dedup "2024-05-01T10:06:00.000Z" "k3x9"
                    Scenario.event_stamped Scenario.showing_a eq_refl H)).
  reflexivity.
Defined.

Lemma onmessage_other_type (now rnd : string) (payload : LiveEvent.t) (st : State) :
  LiveEvent.type payload <> Some "mcp_tool_call" ->
  socket_onmessage now rnd (Parsed payload) st = st.
Proof.
  intro H. unfold socket_onmessage.
  destruct (LiveEvent.type payload) as [t |]; [| reflexivity].
  repeat match goal with
         | |- context [match ?x with _ => _ end] =>
             is_var x; destruct x; try reflexivity
         end.
  congruence.
Qed.

Lemma option_string_dec (a b : option string) : {a = b} + {a <> b}.
Proof. decide equality. apply string_dec. Qed.

(** What one message does to the state: it only extends the tool calls, by
    at most one entry whose key was not there. *)
Lemma onmessage_effect (now rnd : string) (data : parse_result) (st : State) :
  exists added,
    socket_onmessage now rnd data st
    = setToolCalls (fun current => (current ++ added)%list) st
    /\ (length added <= 1)%nat
    /\ (forall c, In c added ->
                  ~ In (dedupKey c) (map dedupKey (toolCalls st))).
Proof.
  assert (Hnone : exists added,
             st = setToolCalls (fun current => (current ++ added)%list) st
             /\ (length added <= 1)%nat
             /\ (forall c, In c added ->
                           ~ In (dedupKey c) (map dedupKey (toolCalls st)))).
  { exists []. split; [| split; [simpl; lia | intros c []]].
    destruct st. unfold setToolCalls. simpl. now rewrite app_nil_r. }
  destruct data as [| payload]; [exact Hnone |].
  destruct (option_string_dec (LiveEvent.type payload) (Some "mcp_tool_call"))
    as [Htype | Htype].
  - unfold socket_onmessage. rewrite Htype.
    set (call := mapEventToToolCall now rnd payload).
    unfold appendUnlessPresent.
    destruct (existsb (fun existing => isSameToolCall existing call) (toolCalls st))
      eqn:E.
    + destruct Hnone as [added [H1 H2]]. exists []. split; [| split].
      * unfold setToolCalls. simpl. rewrite E. now rewrite app_nil_r.
      * simpl; lia.
      * intros c [].
    + exists [call]. split; [| split].
      * unfold setToolCalls. simpl. now rewrite E.
      * simpl; lia.
      * intros c [<- | []] Hin. apply in_map_iff in Hin.
        destruct Hin as [x [Hx Hin]].
        assert (existsb (fun existing => isSameToolCall existing call)
                        (toolCalls st) = true).
        { apply existsb_same_iff. exists x. now split. }
        congruence.
  - rewrite (onmessage_other_type now rnd payload st Htype). exact Hnone.
Qed.

Lemma setToolCalls_twice (f g : list ToolCall.t -> list ToolCall.t) (st : State) :
  setToolCalls g (setToolCalls f st) = setToolCalls (fun c => g (f c)) st.
Proof. reflexivity. Qed.

Lemma messages_effect (msgs : list (string * string * parse_result)) (st : State) :
  exists added,
    run (Messages.actions msgs) st
    = setToolCalls (fun current => (current ++ added)%list) st
    /\ (length added <= length msgs)%nat
    /\ (NoDup (map dedupKey (toolCalls st)) ->
        NoDup (map dedupKey (toolCalls st ++ added))).
Proof.
  revert st. induction msgs as [| [[now rnd] data] msgs IH]; intro st.
  - exists []. split; [| split].
    + destruct st. unfold setToolCalls. simpl. now rewrite app_nil_r.
    + simpl; lia.
    + now rewrite app_nil_r.
  - destruct (onmessage_effect now rnd data st) as [a1 [H1 [L1 F1]]].
    destruct (IH (socket_onmessage now rnd data st)) as [a2 [H2 [L2 N2]]].
    exists (a1 ++ a2)%list. split; [| split].
    + unfold Messages.actions in *. simpl. unfold run in *. simpl.
      rewrite H2, H1, setToolCalls_twice.
      unfold setToolCalls. simpl. now rewrite app_assoc.
    + rewrite length_app. simpl. lia.
    + intro Hnd. rewrite app_assoc.
      rewrite H1 in N2. simpl in N2. apply N2.
      rewrite map_app. apply NoDup_app; [exact Hnd | |].
      * destruct a1 as [| c [| c' a1]]; simpl in *;
          [constructor | repeat constructor; intros [] | lia].
      * intros k Hk Hk'. apply in_map_iff in Hk'.
        destruct Hk' as [c [<- Hc]]. exact (F1 c Hc Hk).
Qed.

(** X20: live messages only append.  Whatever messages arrive (tool calls,
    other events, lines that do not parse), the state afterwards is the state
    before with some entries added at the end of the tool-call list, at most
    one per message: no stored entry is removed, replaced or moved, and no
    other part of the state changes. *)
Theorem live_messages_only_append :
  forall (msgs : list (string * string * parse_result)) (st : State),
  exists added,
    run (Messages.actions msgs) st
    = setToolCalls (fun current => (current ++ added)%list) st
    /\ (length added <= length msgs)%nat.
Proof.
  intros msgs st. destruct (messages_effect msgs st) as [added [H [L _]]].
  now exists added.
Qed.

(** X21: live messages keep the natural keys distinct: when no two stored
    tool calls share their (ts, agent_id, tool, target, result_summary), the
    same holds after any sequence of messages. *)
Theorem live_messages_keep_keys_distinct :
  forall (msgs : list (string * string * parse_result)) (st : State),
    NoDup (map dedupKey (toolCalls st)) ->
    NoDup (map dedupKey (toolCalls (run (Messages.actions msgs) st))).
Proof.
  intros msgs st Hnd. destruct (messages_effect msgs st) as [added [H [_ N]]].
  rewrite H. simpl. now apply N.
Qed.

Lemma live_messages_keep_keys_witness :
  NoDup (map dedupKey (toolCalls Scenario.showing_a))
  /\ NoDup (map dedupKey
                (toolCalls (run (Messages.actions Scenario.burst_messages)
                                Scenario.showing_a))).
Proof.
  assert (H : NoDup (map dedupKey (toolCalls Scenario.showing_a))).
  { apply NoDup_cons; [intros [] | apply NoDup_nil]. }
  split; [exact H |].
  exact (live_messages_keep_keys_distinct Scenario.burst_messages
           Scenario.showing_a H).
Defined.

(** ** Debounced refresh *)

Lemma untimed_steps_keep_timer (trace : list LiveSocket.LiveAction)
      (l : LiveSocket.Live) (h : positive) :
  LiveSocket.refreshHandle l = Some h ->
  (forall a, In a trace -> forall h', a <> LiveSocket.TimerFires h') ->
  LiveSocket.refreshHandle (LiveSocket.liveRun trace l) = Some h
  /\ LiveSocket.timers (LiveSocket.liveRun trace l) = LiveSocket.timers l
  /\ LiveSocket.nextHandle (LiveSocket.liveRun trace l) = LiveSocket.nextHandle l.
Proof.
  revert l. induction trace as [| a trace IH]; intros l Hh Hno; [now simpl |].
  assert (Hstep : LiveSocket.refreshHandle (LiveSocket.liveStep l a) = Some h
                  /\ LiveSocket.timers (LiveSocket.liveStep l a) = LiveSocket.timers l
                  /\ LiveSocket.nextHandle (LiveSocket.liveStep l a)
                     = LiveSocket.nextHandle l).
  { destruct a as [nowIso rnd now data | h' |].
    - unfold LiveSocket.liveStep, LiveSocket.onmessage, LiveSocket.scheduleRefresh.
      simpl. rewrite Hh. simpl. auto.
    - exfalso. apply (Hno (LiveSocket.TimerFires h') (or_introl eq_refl) h').
      reflexivity.
    - simpl. auto. }
  destruct Hstep as [S1 [S2 S3]].
  destruct (IH (LiveSocket.liveStep l a) S1) as [I1 [I2 I3]].
  { intros b Hb. apply Hno. now right. }
  unfold LiveSocket.liveRun in *. simpl.
  rewrite I1, I2, I3. auto.
Qed.

(** X22: the refresh is debounced on the leading edge.  When no refresh is
    pending, the first message of a burst (tool call, other event or
    unparsable line alike) arms one timer due 750 ms after its arrival; until
    that timer fires, further messages and connection errors neither arm
    another timer nor move the one that is armed. *)
Theorem burst_arms_one_timer :
  forall (l : LiveSocket.Live) (nowIso rnd : string) (now : Z)
         (data : parse_result) (rest : list LiveSocket.LiveAction),
    LiveSocket.refreshHandle l = None ->
    (forall a, In a rest -> forall h, a <> LiveSocket.TimerFires h) ->
    let l' := LiveSocket.liveRun
                (LiveSocket.OnMessage nowIso rnd now data :: rest) l in
    LiveSocket.refreshHandle l' = Some (LiveSocket.nextHandle l)
    /\ LiveSocket.timers l'
       = (LiveSocket.timers l ++ [(LiveSocket.nextHandle l, (now + 750)%Z)])%list.
Proof.
  intros l nowIso rnd now data rest Hnone Hno. cbv zeta.
  unfold LiveSocket.liveRun. simpl.
  set (l1 := LiveSocket.onmessage nowIso rnd now data l).
  assert (H1 : LiveSocket.refreshHandle l1 = Some (LiveSocket.nextHandle l)
               /\ LiveSocket.timers l1
                  = (LiveSocket.timers l
                     ++ [(LiveSocket.nextHandle l, (now + 750)%Z)])%list).
  { unfold l1, LiveSocket.onmessage, LiveSocket.scheduleRefresh. simpl.
    rewrite Hnone. simpl. auto. }
  destruct H1 as [Hh Ht].
  destruct (untimed_steps_keep_timer rest l1 _ Hh Hno) as [R1 [R2 _]].
  unfold LiveSocket.liveRun in *. now rewrite R1, R2, Ht.
Qed.

Lemma burst_arms_one_timer_witness :
  LiveSocket.refreshHandle Scenario.live_a = None
  /\ (forall a, In a (tl Scenario.burst) -> forall h, a <> LiveSocket.TimerFires h)
  /\ LiveSocket.timers (LiveSocket.liveRun Scenario.burst Scenario.live_a)
     = [(1%positive, 1750%Z)].
Proof.
  assert (Hno : forall a, In a (tl Scenario.burst) ->
                          forall h, a <> LiveSocket.TimerFires h).
  { intros a [<- | [<- | [<- | []]]] h; discriminate. }
  split; [reflexivity |]. split; [exact Hno |].
  exact (proj2 (burst_arms_one_timer Scenario.live_a
                  "2024-05-01T10:06:00.000Z" "k3x9" 1000
                  (Parsed Scenario.event_stamped) (tl Scenario.burst)
                  eq_refl Hno)).
Defined.

Lemma dropTimer_single (h : positive) (due : Z) :
  LiveSocket.dropTimer h [(h, due)] = [].
Proof. unfold LiveSocket.dropTimer. simpl. now rewrite Pos.eqb_refl. Qed.

Lemma timer_invariant_step (l : LiveSocket.Live) (a : LiveSocket.LiveAction) :
  match LiveSocket.refreshHandle l with
  | Some h => exists due, LiveSocket.timers l = [(h, due)]
  | None => LiveSocket.timers l = []
  end ->
  match LiveSocket.refreshHandle (LiveSocket.liveStep l a) with
  | Some h => exists due, LiveSocket.timers (LiveSocket.liveStep l a) = [(h, due)]
  | None => LiveSocket.timers (LiveSocket.liveStep l a) = []
  end
  /\ LiveSocket.run_of (LiveSocket.liveStep l a) = LiveSocket.run_of l.
Proof.
  intro Inv. destruct a as [nowIso rnd now data | h' |].
  - unfold LiveSocket.liveStep, LiveSocket.onmessage, LiveSocket.scheduleRefresh.
    simpl. destruct (LiveSocket.refreshHandle l) as [h |] eqn:E; simpl.
    + rewrite E. split; [exact Inv | reflexivity].
    + rewrite Inv. split; [eexists; reflexivity | reflexivity].
  - unfold LiveSocket.liveStep, LiveSocket.timerFires.
    destruct (existsb _ (LiveSocket.timers l)) eqn:Ex; [| now split].
    simpl. split; [| reflexivity].
    destruct (LiveSocket.refreshHandle l) as [h |].
    + destruct Inv as [due Ht]. rewrite Ht in *. simpl in Ex.
      rewrite orb_false_r in Ex. apply Pos.eqb_eq in Ex. subst h'.
      apply dropTimer_single.
    + rewrite Inv in Ex. discriminate.
  - simpl. split; [exact Inv | reflexivity].
Qed.

(** X23: from the moment the effect has attached to a run, whatever
    messages, errors and timer firings follow, at most one refresh timer is
    armed, and it is the one the effect holds the handle of; the effect stays
    tied to the run it was attached for; and its cleanup leaves no timer
    armed and the socket closed. *)
Theorem at_most_one_refresh_timer :
  forall (st : State) (l : LiveSocket.Live) (trace : list LiveSocket.LiveAction),
    LiveSocket.attach st = Some l ->
    let l' := LiveSocket.liveRun trace l in
    match LiveSocket.refreshHandle l' with
    | Some h => exists due, LiveSocket.timers l' = [(h, due)]
    | None => LiveSocket.timers l' = []
    end
    /\ LiveSocket.run_of l' = selectedRun st
    /\ selectedRun st <> ""
    /\ LiveSocket.timers (LiveSocket.cleanup l') = []
    /\ LiveSocket.socketOpen (LiveSocket.cleanup l') = false.
Proof.
  intros st l trace Hattach. cbv zeta.
  unfold LiveSocket.attach in Hattach.
  destruct (selectedRun st =? "") eqn:Erun; [discriminate |].
  injection Hattach as Hl. subst l.
  assert (Hgen : forall t l0,
             match LiveSocket.refreshHandle l0 with
             | Some h => exists due, LiveSocket.timers l0 = [(h, due)]
             | None => LiveSocket.timers l0 = []
             end ->
             match LiveSocket.refreshHandle (LiveSocket.liveRun t l0) with
             | Some h => exists due,
                 LiveSocket.timers (LiveSocket.liveRun t l0) = [(h, due)]
             | None => LiveSocket.timers (LiveSocket.liveRun t l0) = []
             end
             /\ LiveSocket.run_of (LiveSocket.liveRun t l0) = LiveSocket.run_of l0).
  { induction t as [| a t IH]; intros l0 Inv; [now split |].
    destruct (timer_invariant_step l0 a Inv) as [Inv' Hrun].
    destruct (IH _ Inv') as [I1 I2].
    unfold LiveSocket.liveRun in *. simpl. split; [exact I1 | congruence]. }
  match goal with
  | |- context [LiveSocket.liveRun trace ?l0] => set (l := l0) in *
  end.
  destruct (Hgen trace l) as [Inv Hrun]; [reflexivity |].
  split; [exact Inv |].
  split; [rewrite Hrun; reflexivity |].
  split; [now apply String.eqb_neq |].
  split; [| reflexivity].
  unfold LiveSocket.cleanup. cbn [LiveSocket.timers].
  revert Inv.
  destruct (LiveSocket.refreshHandle (LiveSocket.liveRun trace l)) as [h |];
    intro Inv.
  - destruct Inv as [due Ht]. rewrite Ht. apply dropTimer_single.
  - exact Inv.
Qed.

Lemma at_most_one_refresh_timer_witness :
  LiveSocket.attach Scenario.showing_a = Some Scenario.live_a
  /\ LiveSocket.timers
       (LiveSocket.cleanup (LiveSocket.liveRun Scenario.burst Scenario.live_a))
     = [].
Proof.
  split; [reflexivity |].
  destruct (at_most_one_refresh_timer Scenario.showing_a Scenario.live_a
              Scenario.burst eq_refl) as [_ [_ [_ [H _]]]].
  exact H.
Defined.
